(** * Online fraud detection: the mock scoring contract

    A shallow embedding of the two scoring entry points of the repository,
    [detectFraud] (the client-side mock) and [handler] (the Lambda-style
    request/response mock), and the properties of the scoring contract
    proved about them.

    Conventions of the embedding.
    - A JavaScript [number] is an exact real ([R]); the value a string
      parses to can moreover be [NaN] or an infinity ([jsnum]).  Arithmetic
      is exact, where the code rounds to binary64.  A bound is therefore
      stated closed wherever rounding reaches it, and a threshold with a
      margin wherever rounding can move a value across it; module
      [Binary64] runs the formulas of the code on floating-point numbers
      and records the draws at which an open bound fails.  The overflow of
      a large literal to an infinity is not modelled.
    - A string is the sequence of the bytes of its UTF-8 encoding.
    - [Math.random()] reads the next element of an explicit infinite
      sequence of draws; a computation threads the sequence and may throw
      (monad [M]).
    - [await] and [setTimeout] only delay: a computation is run to its
      settled value, [Ok] for a resolved promise and [Throw] for a rejected
      one. *)

From Stdlib Require Import Reals Lra ZArith List String Ascii Bool Lia.
From Stdlib Require Floats.PrimFloat.
Import ListNotations.

#[local] Open Scope R_scope.

(** ** Numbers *)

Module Num.

(** The value of [Number.parseFloat]: a finite number, an infinity or NaN. *)
Inductive jsnum : Type :=
| NaN
| NegInf
| PosInf
| Fin (r : R).

(** [x > y] on finite numbers, as a boolean. *)
Definition Rgtb (x y : R) : bool :=
  if Rgt_dec x y then true else false.

(** [x < y] on finite numbers, as a boolean. *)
Definition Rltb (x y : R) : bool :=
  if Rlt_dec x y then true else false.

(** The JavaScript comparison [x > y]: false as soon as one side is NaN. *)
Definition js_gt (x y : jsnum) : bool :=
  match x, y with
  | NaN, _ | _, NaN => false
  | NegInf, _ => false
  | _, PosInf => false
  | PosInf, _ => true
  | Fin _, NegInf => true
  | Fin a, Fin b => Rgtb a b
  end.

End Num.
Import Num.

(** ** [Number.parseFloat] on strings *)

Module ParseFloat.

#[local] Open Scope Z_scope.

Definition is_digit (c : ascii) : bool :=
  let n := nat_of_ascii c in (48 <=? n)%nat && (n <=? 57)%nat.

Definition digit_val (c : ascii) : Z := Z.of_nat (nat_of_ascii c) - 48.

(** The ASCII part of StrWhiteSpaceChar: TAB, LF, VT, FF, CR and space. *)
Definition is_whitespace (c : ascii) : bool :=
  let n := nat_of_ascii c in
  ((9 <=? n)%nat && (n <=? 13)%nat) || (n =? 32)%nat.

(** The StrWhiteSpaceChar of two bytes: U+00A0. *)
Definition is_whitespace2 (c d : ascii) : bool :=
  (nat_of_ascii c =? 194)%nat && (nat_of_ascii d =? 160)%nat.

(** The StrWhiteSpaceChar of three bytes: U+1680, U+2000 to U+200A, U+2028,
    U+2029, U+202F, U+205F, U+3000 and U+FEFF. *)
Definition is_whitespace3 (c d e : ascii) : bool :=
  let c := nat_of_ascii c in
  let d := nat_of_ascii d in
  let e := nat_of_ascii e in
  ((c =? 225) && (d =? 154) && (e =? 128))%nat
  || ((c =? 226) && (d =? 128)
      && (((128 <=? e) && (e <=? 138)) || (e =? 168) || (e =? 169)
          || (e =? 175)))%nat
  || ((c =? 226) && (d =? 129) && (e =? 159))%nat
  || ((c =? 227) && (d =? 128) && (e =? 128))%nat
  || ((c =? 239) && (d =? 187) && (e =? 191))%nat.

Fixpoint trimStart (s : string) : string :=
  match s with
  | String c s1 =>
      if is_whitespace c then trimStart s1
      else
        match s1 with
        | String d s2 =>
            if is_whitespace2 c d then trimStart s2
            else
              match s2 with
              | String e s3 =>
                  if is_whitespace3 c d e then trimStart s3 else s
              | EmptyString => s
              end
        | EmptyString => s
        end
  | EmptyString => EmptyString
  end.

(** Reads a run of decimal digits: the value accumulated on [acc], the
    number of digits read, and what follows them. *)
Fixpoint read_digits (s : string) (acc : Z) (n : nat) : Z * nat * string :=
  match s with
  | String c s' =>
      if is_digit c then read_digits s' (10 * acc + digit_val c) (S n)
      else (acc, n, s)
  | EmptyString => (acc, n, s)
  end.

(** ExponentPart: [e] or [E], an optional sign, at least one digit.  An
    incomplete exponent is not part of the literal and counts as 0. *)
Definition read_exponent (s : string) : Z :=
  match s with
  | String c s' =>
      if (Ascii.eqb c "e" || Ascii.eqb c "E")%bool then
        match s' with
        | String "+" s'' =>
            let '(e, n, _) := read_digits s'' 0 0 in
            match n with O => 0 | _ => e end
        | String "-" s'' =>
            let '(e, n, _) := read_digits s'' 0 0 in
            match n with O => 0 | _ => - e end
        | _ =>
            let '(e, n, _) := read_digits s' 0 0 in
            match n with O => 0 | _ => e end
        end
      else 0
  | EmptyString => 0
  end.

(** StrUnsignedDecimalLiteral, the longest prefix of [s] that is one:
    [Infinity], or digits with an optional fraction and exponent; at least
    one digit before or after the point. *)
Definition read_unsigned (s : string) : option (option (Z * Z)) :=
  if String.prefix "Infinity" s then Some None
  else
    let '(i, ni, rest) := read_digits s 0 0 in
    match rest with
    | String "." rest' =>
        let '(m, nf, rest'') := read_digits rest' i 0 in
        match ni, nf with
        | O, O => None
        | _, _ => Some (Some (m, read_exponent rest'' - Z.of_nat nf))
        end
    | _ =>
        match ni with
        | O => None
        | _ => Some (Some (i, read_exponent rest))
        end
    end.

(** The mathematical value of mantissa [m] and decimal exponent [e]. *)
Definition decimal (m e : Z) : R := (IZR m * powerRZ 10 e)%R.

Definition signed (neg : bool) (u : option (option (Z * Z))) : jsnum :=
  match u with
  | None => NaN
  | Some None => if neg then NegInf else PosInf
  | Some (Some (m, e)) => Fin (if neg then - decimal m e else decimal m e)%R
  end.

(** [Number.parseFloat(s)]: leading white space is skipped, the longest
    prefix that is a StrDecimalLiteral is read, and the result is NaN when
    there is none. *)
Definition parseFloat (s : string) : jsnum :=
  match trimStart s with
  | String "+" s' => signed false (read_unsigned s')
  | String "-" s' => signed true (read_unsigned s')
  | s' => signed false (read_unsigned s')
  end.

End ParseFloat.
Import ParseFloat.

(** ** Computations: a random source, and exceptions *)

Module Effects.

(** What the runtime throws in the code modelled here. *)
Inductive exn : Type :=
| SyntaxError   (* JSON.parse on a text that is not JSON *)
| TypeError.    (* a property read on null or undefined *)

Inductive outcome (A : Type) : Type :=
| Ok (a : A)
| Throw (e : exn).
Arguments Ok {A} a.
Arguments Throw {A} e.

(** The future values of [Math.random()], in the order they are drawn. *)
Definition RandomSource : Type := nat -> R.

(** Every draw lies in [0,1), as [Math.random] promises. *)
Definition unit_draws (s : RandomSource) : Prop :=
  forall n : nat, 0 <= s n < 1.

(** The source after [k] draws. *)
Definition advance (k : nat) (s : RandomSource) : RandomSource :=
  fun n => s (k + n)%nat.

(** The source that draws [r] first and then continues as [s]. *)
Definition draw_first (r : R) (s : RandomSource) : RandomSource :=
  fun n => match n with O => r | S k => s k end.

Definition M (A : Type) : Type :=
  RandomSource -> outcome A * RandomSource.

Definition ret {A : Type} (a : A) : M A := fun s => (Ok a, s).

Definition bind {A B : Type} (m : M A) (k : A -> M B) : M B :=
  fun s =>
    match m s with
    | (Ok a, s') => k a s'
    | (Throw e, s') => (Throw e, s')
    end.

Definition throw {A : Type} (e : exn) : M A := fun s => (Throw e, s).

(** [try { m } catch (error) { h }] *)
Definition try_catch {A : Type} (m : M A) (h : exn -> M A) : M A :=
  fun s =>
    match m s with
    | (Ok a, s') => (Ok a, s')
    | (Throw e, s') => h e s'
    end.

Definition Math_random : M R := fun s => (Ok (s O), advance 1 s).

(** The settled value of a computation started on source [s]. *)
Definition run {A : Type} (m : M A) (s : RandomSource) : outcome A :=
  fst (m s).

End Effects.
Import Effects.

Declare Scope js_scope.
Delimit Scope js_scope with js.
Notation "x <- m ;; k" := (bind m (fun x => k))
  (at level 61, m at next level, right associativity) : js_scope.
Notation "' pat <- m ;; k" := (bind m (fun x => match x with pat => k end))
  (at level 61, pat pattern, m at next level, right associativity) : js_scope.
#[local] Open Scope js_scope.

(** ** Data model (types.ts) *)

Record TransactionData : Type := mkTransactionData {
  amount : string;
  merchantId : string;
  customerId : string;
  location : string;
  deviceId : string;
  ipAddress : string;
  timestamp : string
}.

Record DetectionResult : Type := mkDetectionResult {
  isFraudulent : bool;
  confidence : R;
  processingTime : R;
  quantumContribution : R
}.

(** ** The client-side mock: [detectFraud] *)

Definition detectFraud (transaction : TransactionData) : M DetectionResult :=
  let amount := parseFloat (amount transaction) in
  '(isFraudulent, confidence) <-
    (if js_gt amount (Fin 5000) then
       r <- Math_random ;;
       let isFraudulent := Rgtb r 0.7 in
       confidence <-
         (if isFraudulent
          then (x <- Math_random ;; ret (85 + x * 10))
          else (x <- Math_random ;; ret (75 + x * 15))) ;;
       ret (isFraudulent, confidence)
     else if js_gt amount (Fin 1000) then
       r <- Math_random ;;
       let isFraudulent := Rgtb r 0.9 in
       confidence <-
         (if isFraudulent
          then (x <- Math_random ;; ret (90 + x * 5))
          else (x <- Math_random ;; ret (85 + x * 10))) ;;
       ret (isFraudulent, confidence)
     else
       r <- Math_random ;;
       let isFraudulent := Rgtb r 0.95 in
       confidence <-
         (if isFraudulent
          then (x <- Math_random ;; ret (95 + x * 5))
          else (x <- Math_random ;; ret (90 + x * 8))) ;;
       ret (isFraudulent, confidence)) ;;
  processingTime <- (x <- Math_random ;; ret (100 + x * 150)) ;;
  quantumContribution <- (x <- Math_random ;; ret (60 + x * 25)) ;;
  ret {| isFraudulent := isFraudulent;
         confidence := confidence;
         processingTime := processingTime;
         quantumContribution := quantumContribution |}.

(** ** JSON values and the request/response boundary *)

#[local] Set Warnings "-register-all".

(** The values [JSON.parse] produces. *)
Inductive json : Type :=
| JNull
| JBool (b : bool)
| JNumber (r : R)
| JString (s : string)
| JArray (items : list json)
| JObject (fields : list (string * json)).

(** A value of type [any] read out of a parsed text: [None] is [undefined]. *)
Definition any : Type := option json.

Fixpoint lookup (key : string) (fields : list (string * json)) : any :=
  match fields with
  | [] => None
  | (k, v) :: rest => if String.eqb k key then Some v else lookup key rest
  end.

(** The property read [v.key], for the keys the handler reads (none of them
    is a built-in property of a string, a number, a boolean or an array):
    a TypeError on [null], [undefined] on anything that is not an object. *)
Definition get (v : json) (key : string) : M any :=
  match v with
  | JNull => throw TypeError
  | JObject fields => ret (lookup key fields)
  | _ => ret None
  end.

(** Whether ToString throws a TypeError on a parsed value.  An object
    prints as [[object Object]] through [Object.prototype.toString], unless
    it has a key [toString] of its own: a parsed value is never callable,
    and [valueOf] cannot return a primitive either.  An array prints its
    elements, [null] as the empty text, and throws when one of them does. *)
Fixpoint ToString_throws (v : json) : bool :=
  match v with
  | JObject fields =>
      match lookup "toString" fields with
      | Some _ => true
      | None => false
      end
  | JArray items => existsb ToString_throws items
  | _ => false
  end.

(** The number [Number.parseFloat(v)] returns when ToString does not throw
    on [v].  A number prints to a text that parses back to it; an array
    prints its elements separated by commas, so that only its first element
    can contribute a numeric prefix; [true], [false], [null], [undefined]
    and [[object Object]] have none. *)
Fixpoint Number_parseFloat_json (v : json) : jsnum :=
  match v with
  | JString s => parseFloat s
  | JNumber r => Fin r
  | JArray (first :: _) => Number_parseFloat_json first
  | _ => NaN
  end.

Definition Number_parseFloat_value (v : any) : jsnum :=
  match v with
  | Some j => Number_parseFloat_json j
  | None => NaN
  end.

(** [Number.parseFloat(v)] on a value that need not be a string: the
    argument goes through ToString first, which can throw. *)
Definition Number_parseFloat (v : any) : M jsnum :=
  match v with
  | Some j =>
      if ToString_throws j then throw TypeError
      else ret (Number_parseFloat_json j)
  | None => ret NaN
  end.

(** The argument of [handler]: [null] or [undefined], an event whose
    [body] cannot be converted to a text (ToString throws on it), or an
    event whose [body], as the text [JSON.parse] reads, is [body] (the text
    [undefined] when there is none). *)
Inductive event : Type :=
| NullishEvent
| UnreadableBody
| Event (body : string).

(** A response; [body] is the value whose [JSON.stringify] text is sent. *)
Record response : Type := mkResponse {
  statusCode : Z;
  headers : list (string * string);
  body : json
}.

(** The object [JSON.stringify] prints for a [DetectionResult]. *)
Definition json_of_DetectionResult (r : DetectionResult) : json :=
  JObject [ ("isFraudulent", JBool (isFraudulent r));
            ("confidence", JNumber (confidence r));
            ("processingTime", JNumber (processingTime r));
            ("quantumContribution", JNumber (quantumContribution r)) ]%string.

(** The object [{ error: msg }]. *)
Definition json_of_error (msg : string) : json :=
  JObject [ ("error", JString msg) ]%string.

(** The transaction a parsed text stands for, when it has the shape of
    [TransactionData]: an object with the seven fields, all strings. *)
Definition as_TransactionData (v : json) : option TransactionData :=
  match v with
  | JObject fields =>
      match lookup "amount" fields, lookup "merchantId" fields,
            lookup "customerId" fields, lookup "location" fields,
            lookup "deviceId" fields, lookup "ipAddress" fields,
            lookup "timestamp" fields with
      | Some (JString a), Some (JString m), Some (JString c),
        Some (JString l), Some (JString d), Some (JString i),
        Some (JString t) => Some (mkTransactionData a m c l d i t)
      | _, _, _, _, _, _, _ => None
      end
  | _ => None
  end.

(** ** The server-side mock: [handler] and its stages *)

(** The feature vector [preprocessTransaction] returns. *)
Module Feature.
Record t : Type := mk {
  amount : jsnum;
  customerRiskScore : R;
  merchantRiskScore : R;
  locationRiskScore : R;
  deviceRiskScore : R;
  ipRiskScore : R;
  timeOfDayRiskScore : R
}.
End Feature.

(** The prediction [runClassicalMLModel] returns. *)
Module Classical.
Record t : Type := mk {
  isFraudulent : bool;
  confidenceScore : R;
  processingTime : R
}.
End Classical.

(** The result [runQuantumAnnealingSolver] returns. *)
Module Quantum.
Record t : Type := mk {
  isFraudulent : bool;
  confidence : R;
  processingTime : R
}.
End Quantum.

Definition calculateCustomerRiskScore (customerId : any) : M R :=
  x <- Math_random ;; ret (x * 0.5).

Definition calculateMerchantRiskScore (merchantId : any) : M R :=
  x <- Math_random ;; ret (x * 0.5).

Definition calculateLocationRiskScore (location : any) : M R :=
  x <- Math_random ;; ret (x * 0.5).

Definition calculateDeviceRiskScore (deviceId : any) : M R :=
  x <- Math_random ;; ret (x * 0.5).

Definition calculateIPRiskScore (ipAddress : any) : M R :=
  x <- Math_random ;; ret (x * 0.5).

Definition calculateTimeRiskScore (timestamp : any) : M R :=
  x <- Math_random ;; ret (x * 0.5).

Definition preprocessTransaction (transaction : json) : M Feature.t :=
  amount <- (a <- get transaction "amount" ;; Number_parseFloat a) ;;
  customerRiskScore <-
    (c <- get transaction "customerId" ;; calculateCustomerRiskScore c) ;;
  merchantRiskScore <-
    (m <- get transaction "merchantId" ;; calculateMerchantRiskScore m) ;;
  locationRiskScore <-
    (l <- get transaction "location" ;; calculateLocationRiskScore l) ;;
  deviceRiskScore <-
    (d <- get transaction "deviceId" ;; calculateDeviceRiskScore d) ;;
  ipRiskScore <-
    (i <- get transaction "ipAddress" ;; calculateIPRiskScore i) ;;
  timeOfDayRiskScore <-
    (t <- get transaction "timestamp" ;; calculateTimeRiskScore t) ;;
  ret {| Feature.amount := amount;
         Feature.customerRiskScore := customerRiskScore;
         Feature.merchantRiskScore := merchantRiskScore;
         Feature.locationRiskScore := locationRiskScore;
         Feature.deviceRiskScore := deviceRiskScore;
         Feature.ipRiskScore := ipRiskScore;
         Feature.timeOfDayRiskScore := timeOfDayRiskScore |}.

(** The weighted risk score of [runClassicalMLModel]. *)
Definition riskScore (features : Feature.t) : R :=
  0.4 * (if js_gt (Feature.amount features) (Fin 1000) then 0.7 else 0.3) +
  0.15 * Feature.customerRiskScore features +
  0.15 * Feature.merchantRiskScore features +
  0.1 * Feature.locationRiskScore features +
  0.1 * Feature.deviceRiskScore features +
  0.05 * Feature.ipRiskScore features +
  0.05 * Feature.timeOfDayRiskScore features.

Definition runClassicalMLModel (features : Feature.t) : M Classical.t :=
  let riskScore := riskScore features in
  processingTime <- (x <- Math_random ;; ret (50 + x * 30)) ;;
  ret {| Classical.isFraudulent := Rgtb riskScore 0.6;
         Classical.confidenceScore :=
           if Rgtb riskScore 0.6 then riskScore else 1 - riskScore;
         Classical.processingTime := processingTime |}.

Definition calculateQuantumRiskScore (features : Feature.t) : R :=
  let baseScore :=
    0.3 * (if js_gt (Feature.amount features) (Fin 1000) then 0.8 else 0.4) +
    0.2 * Feature.customerRiskScore features +
    0.2 * Feature.merchantRiskScore features +
    0.1 * Feature.locationRiskScore features +
    0.1 * Feature.deviceRiskScore features +
    0.05 * Feature.ipRiskScore features +
    0.05 * Feature.timeOfDayRiskScore features in
  let nonLinearComponent :=
    sin (Feature.customerRiskScore features *
         Feature.merchantRiskScore features * PI) * 0.1 +
    cos (Feature.locationRiskScore features *
         Feature.timeOfDayRiskScore features * PI) * 0.1 in
  Rmin (Rmax (baseScore + nonLinearComponent) 0) 1.

(** The awaited 200 ms timer only delays the result. *)
Definition runQuantumAnnealingSolver (features : Feature.t) : M Quantum.t :=
  let quantumRiskScore := calculateQuantumRiskScore features in
  processingTime <- (x <- Math_random ;; ret (150 + x * 100)) ;;
  ret {| Quantum.isFraudulent := Rgtb quantumRiskScore 0.5;
         Quantum.confidence :=
           if Rgtb quantumRiskScore 0.5
           then quantumRiskScore * 100
           else (1 - quantumRiskScore) * 100;
         Quantum.processingTime := processingTime |}.

Definition json_headers : list (string * string) :=
  [ ("Content-Type", "application/json") ]%string.

Section Handler.

(** [JSON.parse] of the runtime: [None] when it throws a SyntaxError. *)
Variable JSON_parse : string -> option json.

(** [JSON.parse(event.body)] *)
Definition parse_event_body (ev : event) : M json :=
  match ev with
  | NullishEvent => throw TypeError
  | UnreadableBody => throw TypeError
  | Event body =>
      match JSON_parse body with
      | Some v => ret v
      | None => throw SyntaxError
      end
  end.

(** The message [console.error] prints in the catch block is not part of
    the response and is left out. *)
Definition handler (ev : event) : M response :=
  try_catch
    (transactionData <- parse_event_body ev ;;
     processedFeatures <- preprocessTransaction transactionData ;;
     mlPrediction <- runClassicalMLModel processedFeatures ;;
     finalResult <-
       (if Rltb (Classical.confidenceScore mlPrediction) 0.85 then
          quantumResult <- runQuantumAnnealingSolver processedFeatures ;;
          ret {| isFraudulent := Quantum.isFraudulent quantumResult;
                 confidence := Quantum.confidence quantumResult;
                 processingTime := Quantum.processingTime quantumResult;
                 quantumContribution := 75 |}
        else
          ret {| isFraudulent := Classical.isFraudulent mlPrediction;
                 confidence := Classical.confidenceScore mlPrediction * 100;
                 processingTime := Classical.processingTime mlPrediction;
                 quantumContribution := 25 |}) ;;
     ret {| statusCode := 200;
            headers := json_headers;
            body := json_of_DetectionResult finalResult |})
    (fun error =>
       ret {| statusCode := 500;
              headers := json_headers;
              body := json_of_error "Failed to process transaction" |}).

End Handler.

(** ** The vocabulary of the properties *)

(** Order between a parsed amount and a finite bound, as propositions. *)
Definition num_gt (x : jsnum) (c : R) : Prop :=
  match x with
  | PosInf => True
  | Fin a => a > c
  | _ => False
  end.

Definition num_le (x : jsnum) (c : R) : Prop :=
  match x with
  | NegInf => True
  | Fin a => a <= c
  | _ => False
  end.

(** An amount that is not a non-negative decimal number. *)
Definition invalid_amount (x : jsnum) : Prop :=
  match x with
  | Fin a => a < 0
  | _ => True
  end.

(** The probability of an event on one uniform draw from [0,1]: the integral
    of its indicator function. *)
Definition indicator (E : R -> bool) : R -> R :=
  fun r => if E r then 1 else 0.

Definition has_probability (E : R -> bool) (p : R) : Prop :=
  exists pr : Riemann_integrable (indicator E) 0 1, RiemannInt pr = p.

(** The verdict of [detectFraud] on a source. *)
Definition fraud_verdict (tx : TransactionData) (s : RandomSource) : bool :=
  match run (detectFraud tx) s with
  | Ok d => isFraudulent d
  | Throw _ => false
  end.

(** [detectFraud] reports fraud with probability [p]: over the first draw,
    whatever the later draws are. *)
Definition fraud_probability (tx : TransactionData) (p : R) : Prop :=
  forall rest : RandomSource,
    has_probability (fun r => fraud_verdict tx (draw_first r rest)) p.

(** The contract of one tier on a result [d]: the fraud probability, and
    the range of the confidence for each verdict. *)
Definition tier_contract (tx : TransactionData) (d : DetectionResult)
    (p lo_fraud hi_fraud lo_clear hi_clear : R) : Prop :=
  fraud_probability tx p /\
  (isFraudulent d = true -> lo_fraud <= confidence d <= hi_fraud) /\
  (isFraudulent d = false -> lo_clear <= confidence d <= hi_clear).

(** The source [s] with its draw number [n] replaced by [r]. *)
Definition with_draw (n : nat) (r : R) (s : RandomSource) : RandomSource :=
  fun k => if Nat.eqb k n then r else s k.

(** Whether a numeric field of the result of [detectFraud] is at most [x]. *)
Definition field_at_most (field : DetectionResult -> R)
    (tx : TransactionData) (x : R) (s : RandomSource) : bool :=
  match run (detectFraud tx) s with
  | Ok d => negb (Rgtb (field d) x)
  | Throw _ => false
  end.

(** A field is uniformly distributed on [lo, hi] as a function of draw
    number [n]: it is at most [x] with probability [(x - lo) / (hi - lo)]. *)
Definition uniformly_drawn (field : DetectionResult -> R)
    (tx : TransactionData) (n : nat) (lo hi : R) : Prop :=
  forall (s : RandomSource) (x : R),
    lo <= x <= hi ->
    has_probability (fun r => field_at_most field tx x (with_draw n r s))
                    ((x - lo) / (hi - lo)).

(** The function that is [u] up to [t] and [v] above it. *)
Definition two_step (t u v : R) : R -> R :=
  fun r => if Rgtb r t then v else u.

(** The property [v.key] as a value, where reading it does not throw. *)
Definition property (v : json) (key : string) : any :=
  match v with
  | JObject fields => lookup key fields
  | _ => None
  end.

(** The first two stages of [handler]: preprocessing, then the classical
    screening. *)
Definition screening (transaction : json) : M (Feature.t * Classical.t) :=
  processedFeatures <- preprocessTransaction transaction ;;
  mlPrediction <- runClassicalMLModel processedFeatures ;;
  ret (processedFeatures, mlPrediction).

(** The feature vector of a non-null value [v] on source [s]: one draw per
    sub-score, in the order of the object literal. *)
Definition features_of (v : json) (s : RandomSource) : Feature.t :=
  {| Feature.amount := Number_parseFloat_value (property v "amount");
     Feature.customerRiskScore := s 0%nat * 0.5;
     Feature.merchantRiskScore := s 1%nat * 0.5;
     Feature.locationRiskScore := s 2%nat * 0.5;
     Feature.deviceRiskScore := s 3%nat * 0.5;
     Feature.ipRiskScore := s 4%nat * 0.5;
     Feature.timeOfDayRiskScore := s 5%nat * 0.5 |}.

(** The classical prediction on features [f] when the draw is [x]. *)
Definition prediction_of (f : Feature.t) (x : R) : Classical.t :=
  {| Classical.isFraudulent := Rgtb (riskScore f) 0.6;
     Classical.confidenceScore :=
       if Rgtb (riskScore f) 0.6 then riskScore f else 1 - riskScore f;
     Classical.processingTime := 50 + x * 30 |}.

(** The two shapes of [finalResult]. *)
Definition quantum_final (q : Quantum.t) : DetectionResult :=
  {| isFraudulent := Quantum.isFraudulent q;
     confidence := Quantum.confidence q;
     processingTime := Quantum.processingTime q;
     quantumContribution := 75 |}.

Definition classical_final (p : Classical.t) : DetectionResult :=
  {| isFraudulent := Classical.isFraudulent p;
     confidence := Classical.confidenceScore p * 100;
     processingTime := Classical.processingTime p;
     quantumContribution := 25 |}.

(** The two shapes of a response. *)
Definition ok_response (d : DetectionResult) : response :=
  {| statusCode := 200;
     headers := json_headers;
     body := json_of_DetectionResult d |}.

Definition error_response : response :=
  {| statusCode := 500;
     headers := json_headers;
     body := json_of_error "Failed to process transaction" |}.

(** Whether converting the [amount] of a parsed value to a text throws. *)
Definition amount_throws (v : json) : bool :=
  match property v "amount" with
  | Some a => ToString_throws a
  | None => false
  end.

(** The input on which the [try] block of [handler] throws: no event or no
    readable body, a body that is not JSON, the JSON text [null], or an
    amount whose conversion to a text throws. *)
Definition try_block_throws (JSON_parse : string -> option json)
    (ev : event) : Prop :=
  match ev with
  | NullishEvent => True
  | UnreadableBody => True
  | Event body =>
      match JSON_parse body with
      | None => True
      | Some v => v = JNull \/ amount_throws v = true
      end
  end.

(** Every sub-score of a feature vector lies in [0,0.5). *)
Definition sub_scores_bounded (f : Feature.t) : Prop :=
  0 <= Feature.customerRiskScore f < 0.5 /\
  0 <= Feature.merchantRiskScore f < 0.5 /\
  0 <= Feature.locationRiskScore f < 0.5 /\
  0 <= Feature.deviceRiskScore f < 0.5 /\
  0 <= Feature.ipRiskScore f < 0.5 /\
  0 <= Feature.timeOfDayRiskScore f < 0.5.

(** ** Sample inputs *)

(** The transaction of the dashboard's form, with a given amount. *)
Definition sample_transaction (amount : string) : TransactionData :=
  {| amount := amount;
     merchantId := "MERCH-8765";
     customerId := "CUST-1234";
     location := "New York, USA";
     deviceId := "DEV-5678";
     ipAddress := "192.168.1.1";
     timestamp := "2024-01-01T00:00:00.000Z" |}.

(** The object [JSON.parse] returns for the text of a transaction. *)
Definition json_of_TransactionData (tx : TransactionData) : json :=
  JObject [ ("amount", JString (amount tx));
            ("merchantId", JString (merchantId tx));
            ("customerId", JString (customerId tx));
            ("location", JString (location tx));
            ("deviceId", JString (deviceId tx));
            ("ipAddress", JString (ipAddress tx));
            ("timestamp", JString (timestamp tx)) ]%string.

(** A source whose draws are all [r]. *)
Definition constant_source (r : R) : RandomSource := fun _ => r.

(** A source that draws 1/2 four times and 9/10 from then on. *)
Definition late_source : RandomSource :=
  fun n => if (n <? 4)%nat then 0.5 else 0.9.

(** A transaction with other identifiers than the sample. *)
Definition other_transaction (amount : string) : TransactionData :=
  {| amount := amount;
     merchantId := "MERCH-0001";
     customerId := "CUST-9999";
     location := "Lagos, Nigeria";
     deviceId := "DEV-0000";
     ipAddress := "10.0.0.1";
     timestamp := "1999-12-31T23:59:59.000Z" |}.

(** A parser for which the text [a] is the sample transaction with amount
    [abc] and every other text the other transaction with amount [50]. *)
Definition two_body_parse (text : string) : option json :=
  if String.eqb text "a" then
    Some (json_of_TransactionData (sample_transaction "abc"))
  else Some (json_of_TransactionData (other_transaction "50")).

(** A parser that knows three texts: [tx] is the sample transaction with
    amount [abc], [null] is null, and [50] is the number 50. *)
Definition sample_parse (text : string) : option json :=
  if String.eqb text "tx" then
    Some (json_of_TransactionData (sample_transaction "abc"))
  else if String.eqb text "null" then Some JNull
  else if String.eqb text "50" then Some (JNumber 50)
  else None.

(** An object whose amount is an object with a key [toString], and a parser
    that returns it for every text. *)
Definition unconvertible_amount : json :=
  JObject [ ("amount", JObject [ ("toString", JNull) ]) ]%string.

Definition unconvertible_parse (text : string) : option json :=
  Some unconvertible_amount.

(** ** The terms of the quantum risk score *)

(** The two summands [calculateQuantumRiskScore] clamps into [0,1]. *)
Definition baseScore (features : Feature.t) : R :=
  0.3 * (if js_gt (Feature.amount features) (Fin 1000) then 0.8 else 0.4) +
  0.2 * Feature.customerRiskScore features +
  0.2 * Feature.merchantRiskScore features +
  0.1 * Feature.locationRiskScore features +
  0.1 * Feature.deviceRiskScore features +
  0.05 * Feature.ipRiskScore features +
  0.05 * Feature.timeOfDayRiskScore features.

Definition nonLinearComponent (features : Feature.t) : R :=
  sin (Feature.customerRiskScore features *
       Feature.merchantRiskScore features * PI) * 0.1 +
  cos (Feature.locationRiskScore features *
       Feature.timeOfDayRiskScore features * PI) * 0.1.

(** The quantum result on features [f] when the draw is [x]. *)
Definition quantum_of (f : Feature.t) (x : R) : Quantum.t :=
  {| Quantum.isFraudulent := Rgtb (calculateQuantumRiskScore f) 0.5;
     Quantum.confidence :=
       if Rgtb (calculateQuantumRiskScore f) 0.5
       then calculateQuantumRiskScore f * 100
       else (1 - calculateQuantumRiskScore f) * 100;
     Quantum.processingTime := 150 + x * 100 |}.

(** Whether the amount a parsed body carries is above 1000. *)
Definition above_1000 (v : json) : bool :=
  js_gt (Number_parseFloat_value (property v "amount")) (Fin 1000).

(** The weighted sum of the six sub-scores in [riskScore]. *)
Definition sub_score_sum (f : Feature.t) : R :=
  0.15 * Feature.customerRiskScore f +
  0.15 * Feature.merchantRiskScore f +
  0.1 * Feature.locationRiskScore f +
  0.1 * Feature.deviceRiskScore f +
  0.05 * Feature.ipRiskScore f +
  0.05 * Feature.timeOfDayRiskScore f.

(** ** The dashboard (fraud-detection-dashboard.tsx) *)

Module Dashboard.

(** The state of [FraudDetectionDashboard]: the three [useState] cells, and
    the call of [handleDetect] in flight, if any, with the transaction its
    closure holds.  A key that [handleInputChange] adds beside the seven
    fields is read by nothing and is not kept. *)
Record state : Type := mkState {
  transactionData : TransactionData;
  result : option DetectionResult;
  isProcessing : bool;
  in_flight : option TransactionData
}.

(** The initial state; [now] is [new Date().toISOString()]. *)
Definition initial_state (now : string) : state :=
  {| transactionData :=
       {| amount := "1250.00";
          merchantId := "MERCH-8765";
          customerId := "CUST-1234";
          location := "New York, USA";
          deviceId := "DEV-5678";
          ipAddress := "192.168.1.1";
          timestamp := now |};
     result := None;
     isProcessing := false;
     in_flight := None |}.

(** [{ ...transactionData, [name]: value }] *)
Definition set_field (name value : string) (tx : TransactionData)
  : TransactionData :=
  let '(mkTransactionData a m c l d i t) := tx in
  if String.eqb name "amount" then mkTransactionData value m c l d i t
  else if String.eqb name "merchantId" then mkTransactionData a value c l d i t
  else if String.eqb name "customerId" then mkTransactionData a m value l d i t
  else if String.eqb name "location" then mkTransactionData a m c value d i t
  else if String.eqb name "deviceId" then mkTransactionData a m c l value i t
  else if String.eqb name "ipAddress" then mkTransactionData a m c l d value t
  else if String.eqb name "timestamp" then mkTransactionData a m c l d i value
  else tx.

(** [handleInputChange(e)], with [e.target.name] and [e.target.value]. *)
Definition handleInputChange (name value : string) (st : state) : state :=
  {| transactionData := set_field name value (transactionData st);
     result := result st;
     isProcessing := isProcessing st;
     in_flight := in_flight st |}.

(** [handleDetect] up to its first [await]: [setIsProcessing(true)]. *)
Definition handleDetect_start (st : state) : state :=
  {| transactionData := transactionData st;
     result := result st;
     isProcessing := true;
     in_flight := Some (transactionData st) |}.

(** [handleDetect] after the timer: [detectFraud] on the transaction of the
    closure, [setResult] when it resolves, and [setIsProcessing(false)] in
    the [finally] block either way. *)
Definition handleDetect_settle (tx : TransactionData) (st : state)
    (s : RandomSource) : state * RandomSource :=
  match detectFraud tx s with
  | (Ok detectionResult, s') =>
      ({| transactionData := transactionData st;
          result := Some detectionResult;
          isProcessing := false;
          in_flight := None |}, s')
  | (Throw _, s') =>
      ({| transactionData := transactionData st;
          result := result st;
          isProcessing := false;
          in_flight := None |}, s')
  end.

(** The four inputs of the form, and their [name] attributes. *)
Inductive input : Type :=
| AmountInput
| MerchantIdInput
| CustomerIdInput
| LocationInput.

Definition name_of (i : input) : string :=
  match i with
  | AmountInput => "amount"
  | MerchantIdInput => "merchantId"
  | CustomerIdInput => "customerId"
  | LocationInput => "location"
  end.

(** What can happen to the component: an input is edited, the button is
    clicked, the timer of the call in flight fires. *)
Inductive ui_event : Type :=
| Change (i : input) (value : string)
| Click
| Settle.

(** One event.  The button is disabled while [isProcessing], so that a click
    then reaches no handler; the inputs are never disabled. *)
Definition step (c : state * RandomSource) (e : ui_event)
  : state * RandomSource :=
  let '(st, s) := c in
  match e with
  | Change i value => (handleInputChange (name_of i) value st, s)
  | Click => if isProcessing st then (st, s) else (handleDetect_start st, s)
  | Settle =>
      match in_flight st with
      | Some tx => handleDetect_settle tx st s
      | None => (st, s)
      end
  end.

Definition run_events (es : list ui_event) (c : state * RandomSource)
  : state * RandomSource :=
  fold_left step es c.

(** What the results card shows. *)
Inductive results_card : Type :=
| Spinner
| Verdict (detectionResult : DetectionResult)
| Placeholder.

Definition view (st : state) : results_card :=
  if isProcessing st then Spinner
  else match result st with
       | Some r => Verdict r
       | None => Placeholder
       end.

(** A series of edits of the form, and the transaction they leave. *)
Definition changes (edits : list (input * string)) : list ui_event :=
  map (fun e => Change (fst e) (snd e)) edits.

Definition apply_edits (edits : list (input * string))
    (tx : TransactionData) : TransactionData :=
  fold_left (fun tx e => set_field (name_of (fst e)) (snd e) tx) edits tx.

(** What holds of every state the component reaches: it is processing
    exactly when a call is in flight, and the three fields without an input
    are those of the initial state. *)
Definition reachable_invariant (now : string) (st : state) : Prop :=
  (isProcessing st = true <-> in_flight st <> None) /\
  deviceId (transactionData st) = "DEV-5678"%string /\
  ipAddress (transactionData st) = "192.168.1.1"%string /\
  timestamp (transactionData st) = now.

(** The detection result is within the ranges of the scoring contract. *)
Definition in_contract (d : DetectionResult) : Prop :=
  75 <= confidence d <= 100 /\
  100 <= processingTime d < 250 /\
  60 <= quantumContribution d <= 85.

End Dashboard.

(** ** The simulated fields in binary64 *)

(** The formulas of [detectFraud] that have an open upper bound in exact
    arithmetic, on the floating-point numbers JavaScript computes with. *)
Module Binary64.
Import PrimFloat.
#[local] Open Scope float_scope.

(** The largest binary64 number below 1, and the largest draw of a generator
    that returns multiples of 2^-52. *)
Definition largest_draw : float := 0x1.fffffffffffffp-1.
Definition largest_draw_52 : float := 0x1.ffffffffffffep-1.

Definition processingTime_of (r : float) : float := 100 + r * 150.
Definition quantumContribution_of (r : float) : float := 60 + r * 25.
Definition low_fraud_confidence_of (r : float) : float := 95 + r * 5.

(** A value [Math.random()] can return: at least 0 and below 1. *)
Definition is_draw (r : float) : bool := (0 <=? r) && (r <? 1).

Definition processingTime_below_250 (r : float) : bool :=
  processingTime_of r <? 250.
Definition quantumContribution_is_85 (r : float) : bool :=
  quantumContribution_of r =? 85.
Definition low_fraud_confidence_is_100 (r : float) : bool :=
  low_fraud_confidence_of r =? 100.

#[local] Set Warnings "-inexact-float".

(** The record [detectFraud] returns, its numbers in binary64. *)
Record result : Type := mkResult {
  isFraudulent : bool;
  confidence : float;
  processingTime : float;
  quantumContribution : float
}.

(** [detectFraud] in binary64, on a transaction whose amount parses to
    [amount]; [s] gives the values of [Math.random()] in the order of the
    calls. *)
Definition detectFraud (amount : float) (s : nat -> float) : result :=
  let '(isFraudulent, confidence) :=
    if 5000 <? amount then
      let isFraudulent := 0.7 <? s 0%nat in
      (isFraudulent,
       if isFraudulent then 85 + s 1%nat * 10 else 75 + s 1%nat * 15)
    else if 1000 <? amount then
      let isFraudulent := 0.9 <? s 0%nat in
      (isFraudulent,
       if isFraudulent then 90 + s 1%nat * 5 else 85 + s 1%nat * 10)
    else
      let isFraudulent := 0.95 <? s 0%nat in
      (isFraudulent,
       if isFraudulent then 95 + s 1%nat * 5 else 90 + s 1%nat * 8) in
  {| isFraudulent := isFraudulent;
     confidence := confidence;
     processingTime := 100 + s 2%nat * 150;
     quantumContribution := 60 + s 3%nat * 25 |}.

(** The source whose draws are all the largest number below 1. *)
Definition largest_draws : nat -> float := fun _ => largest_draw.

(** The amount 1250.00 of the form, and an amount that did not parse. *)
Definition amount_1250 : float := 1250.
Definition amount_NaN : float := nan.

Definition quantumContribution_below_85 (r : result) : bool :=
  quantumContribution r <? 85.
Definition confidence_below_100 (r : result) : bool :=
  confidence r <? 100.
Definition confidence_below_98 (r : result) : bool :=
  confidence r <? 98.

(** The processing times of the two stages of [handler]. *)
Definition classical_processingTime_of (r : float) : float := 50 + r * 30.
Definition quantum_processingTime_of (r : float) : float := 150 + r * 100.
Definition classical_processingTime_is_80 (r : float) : bool :=
  classical_processingTime_of r =? 80.
Definition quantum_processingTime_is_250 (r : float) : bool :=
  quantum_processingTime_of r =? 250.

(** The classical confidence on an amount that is not above 1000 when the
    six draws are all [r], and a draw just above 0.1. *)
Definition low_amount_confidenceScore (r : float) : float :=
  let x := r * 0.5 in
  let riskScore :=
    0.4 * 0.3 + 0.15 * x + 0.15 * x + 0.1 * x + 0.1 * x + 0.05 * x
    + 0.05 * x in
  if 0.6 <? riskScore then riskScore else 1 - riskScore.
Definition draw_above_tenth : float := 0x3333333333334p-53.
Definition gate_opens (confidenceScore : float) : bool :=
  confidenceScore <? 0.85.

End Binary64.

(** * Properties *)

(** ** Comparisons *)

Lemma Rgtb_true (x y : R) : Rgtb x y = true <-> x > y.
Proof. unfold Rgtb; destruct (Rgt_dec x y); split; intros; easy. Qed.

Lemma Rgtb_false (x y : R) : Rgtb x y = false <-> x <= y.
Proof.
  unfold Rgtb; destruct (Rgt_dec x y); split; intros; try easy; lra.
Qed.

Lemma Rltb_true (x y : R) : Rltb x y = true <-> x < y.
Proof. unfold Rltb; destruct (Rlt_dec x y); split; intros; easy. Qed.

Lemma Rltb_false (x y : R) : Rltb x y = false <-> y <= x.
Proof.
  unfold Rltb; destruct (Rlt_dec x y); split; intros; try easy; lra.
Qed.

Lemma num_gt_js_gt (x : jsnum) (c : R) : num_gt x c -> js_gt x (Fin c) = true.
Proof.
  destruct x; simpl; try easy. intros H. now apply Rgtb_true.
Qed.

Lemma num_le_js_gt (x : jsnum) (c : R) : num_le x c -> js_gt x (Fin c) = false.
Proof.
  destruct x; simpl; try easy. intros H. now apply Rgtb_false.
Qed.

(** ** What some amounts parse to *)

(** Evaluates [parseFloat] on a literal: the scanning by computation, the
    decimal value by arithmetic. *)
Ltac parse_float :=
  cbv -[IZR Rmult Ropp powerRZ]; try reflexivity;
  f_equal; simpl; lra.

Example parseFloat_abc : parseFloat "abc" = NaN.
Proof. reflexivity. Qed.

Example parseFloat_empty : parseFloat "" = NaN.
Proof. reflexivity. Qed.

Example parseFloat_Infinity : parseFloat "Infinity" = PosInf.
Proof. reflexivity. Qed.

Example parseFloat_1250 : parseFloat "1250.00" = Fin 1250.
Proof. parse_float. Qed.

Example parseFloat_50 : parseFloat "50" = Fin 50.
Proof. parse_float. Qed.

Example parseFloat_6000 : parseFloat "6000" = Fin 6000.
Proof. parse_float. Qed.

Example parseFloat_minus_5 : parseFloat "-5" = Fin (-5).
Proof. parse_float. Qed.

Example parseFloat_prefix : parseFloat " 12.5e1abc" = Fin 125.
Proof. parse_float. Qed.

(** A no-break space, U+00A0, before the digits is skipped. *)
Example parseFloat_no_break_space :
  parseFloat (String (ascii_of_nat 194) (String (ascii_of_nat 160) "6000"))
  = Fin 6000.
Proof. parse_float. Qed.

(** ** The probability of a threshold event *)

Lemma has_probability_ext (E E' : R -> bool) (p : R) :
  (forall r, E r = E' r) -> has_probability E p -> has_probability E' p.
Proof.
  intros HE [pr Hp].
  assert (Hext : forall x, Rmin 0 1 <= x <= Rmax 0 1 ->
                           indicator E x = indicator E' x).
  { intros x _. unfold indicator. now rewrite HE. }
  exists (@Riemann_integrable_ext _ _ _ _ Hext pr).
  rewrite <- Hp. apply RiemannInt_P18; [lra|].
  intros x _. unfold indicator. now rewrite HE.
Qed.

(** A probability is determined by the event. *)
Lemma has_probability_unique (E : R -> bool) (p q : R) :
  has_probability E p -> has_probability E q -> p = q.
Proof.
  intros [pr Hp] [pr' Hq]. rewrite <- Hp, <- Hq. apply RiemannInt_P5.
Qed.

Lemma two_step_below (t u v x : R) : x <= t -> two_step t u v x = u.
Proof.
  intros H. unfold two_step.
  assert (E : Rgtb x t = false) by now apply Rgtb_false.
  now rewrite E.
Qed.

Lemma two_step_above (t u v x : R) : t < x -> two_step t u v x = v.
Proof.
  intros H. unfold two_step.
  assert (E : Rgtb x t = true) by now apply Rgtb_true.
  now rewrite E.
Qed.

(** Above [t] a two-step function is a step function of value [v]. *)
Lemma two_step_adapted (t u v : R) :
  t <= 1 -> adapted_couple (two_step t u v) t 1 [t; 1] [v].
Proof.
  intros Ht. unfold adapted_couple. repeat split.
  - intros i Hi. simpl in Hi. assert (i = 0%nat) by lia. subst. simpl. lra.
  - simpl. unfold Rmin. destruct (Rle_dec t 1); lra.
  - simpl. unfold Rmax. destruct (Rle_dec t 1); lra.
  - intros i Hi. simpl in Hi. assert (i = 0%nat) by lia. subst. simpl.
    intros x [Hx _]. now apply two_step_above.
Qed.

Lemma two_step_integrable_above (t u v : R) :
  t <= 1 -> Riemann_integrable (two_step t u v) t 1.
Proof.
  intros Ht eps.
  set (isf := existT _ [t; 1] (existT _ [v] (two_step_adapted t u v Ht))
              : IsStepFun (two_step t u v) t 1).
  exists (mkStepFun isf), (mkStepFun (StepFun_P4 t 1 0)). split.
  - intros x _. simpl. unfold fct_cte.
    replace (two_step t u v x - two_step t u v x) with 0 by ring.
    rewrite Rabs_R0. lra.
  - rewrite StepFun_P18, Rmult_0_l, Rabs_R0. apply cond_pos.
Qed.

(** Up to [t] it is the constant [u]. *)
Lemma two_step_integrable_below (t u v : R) :
  0 <= t -> Riemann_integrable (two_step t u v) 0 t.
Proof.
  intros Ht. apply Riemann_integrable_ext with (f := fct_cte u).
  - intros x [_ Hx]. unfold fct_cte.
    unfold Rmax in Hx. destruct (Rle_dec 0 t); [|lra].
    symmetry. now apply two_step_below.
  - apply RiemannInt_P14.
Qed.

Lemma two_step_integral (t u v : R) :
  0 <= t <= 1 ->
  exists pr : Riemann_integrable (two_step t u v) 0 1,
    RiemannInt pr = u * t + v * (1 - t).
Proof.
  intros [H0 H1].
  pose (pa := two_step_integrable_below t u v H0).
  pose (pb := two_step_integrable_above t u v H1).
  exists (RiemannInt_P24 pa pb).
  rewrite <- (RiemannInt_P26 pa pb).
  rewrite (RiemannInt_P18 pa (RiemannInt_P14 0 t u) H0).
  2:{ intros x [_ Hx]. unfold fct_cte. apply two_step_below. lra. }
  rewrite (RiemannInt_P18 pb (RiemannInt_P14 t 1 v) H1).
  2:{ intros x [Hx _]. unfold fct_cte. now apply two_step_above. }
  rewrite !RiemannInt_P15. ring.
Qed.

(** An event whose indicator is a two-step function. *)
Lemma two_step_probability (E : R -> bool) (t u v : R) :
  0 <= t <= 1 ->
  (forall r, indicator E r = two_step t u v r) ->
  has_probability E (u * t + v * (1 - t)).
Proof.
  intros Ht HE. destruct (two_step_integral t u v Ht) as [pr Hpr].
  assert (Hext : forall x, Rmin 0 1 <= x <= Rmax 0 1 ->
                           two_step t u v x = indicator E x).
  { intros x _. symmetry. apply HE. }
  exists (@Riemann_integrable_ext _ _ _ _ Hext pr).
  rewrite <- Hpr. apply RiemannInt_P18; [lra|].
  intros x _. apply HE.
Qed.

(** A uniform draw exceeds [t] with probability [1 - t]. *)
Lemma threshold_probability (t : R) :
  0 <= t <= 1 -> has_probability (fun r => Rgtb r t) (1 - t).
Proof.
  intros Ht. replace (1 - t) with (0 * t + 1 * (1 - t)) by ring.
  apply two_step_probability; [assumption|].
  intros r. reflexivity.
Qed.

(** A uniform draw is at most [t] with probability [t]. *)
Lemma at_most_probability (t : R) :
  0 <= t <= 1 -> has_probability (fun r => negb (Rgtb r t)) t.
Proof.
  intros Ht.
  assert (H : has_probability (fun r => negb (Rgtb r t))
                              (1 * t + 0 * (1 - t))).
  { apply two_step_probability; [assumption|].
    intros r. unfold indicator, two_step. now destruct (Rgtb r t). }
  now replace (1 * t + 0 * (1 - t)) with t in H by ring.
Qed.

(** ** [detectFraud], tier by tier *)

Lemma detectFraud_high (tx : TransactionData) (s : RandomSource) :
  js_gt (parseFloat (amount tx)) (Fin 5000) = true ->
  detectFraud tx s =
    (Ok {| isFraudulent := Rgtb (s 0%nat) 0.7;
           confidence := if Rgtb (s 0%nat) 0.7
                         then 85 + s 1%nat * 10 else 75 + s 1%nat * 15;
           processingTime := 100 + s 2%nat * 150;
           quantumContribution := 60 + s 3%nat * 25 |},
     advance 4 s).
Proof.
  intros H. unfold detectFraud, bind, Math_random. rewrite H.
  destruct (Rgtb (s 0%nat) 0.7); reflexivity.
Qed.

Lemma detectFraud_medium (tx : TransactionData) (s : RandomSource) :
  js_gt (parseFloat (amount tx)) (Fin 5000) = false ->
  js_gt (parseFloat (amount tx)) (Fin 1000) = true ->
  detectFraud tx s =
    (Ok {| isFraudulent := Rgtb (s 0%nat) 0.9;
           confidence := if Rgtb (s 0%nat) 0.9
                         then 90 + s 1%nat * 5 else 85 + s 1%nat * 10;
           processingTime := 100 + s 2%nat * 150;
           quantumContribution := 60 + s 3%nat * 25 |},
     advance 4 s).
Proof.
  intros H H'. unfold detectFraud, bind, Math_random. rewrite H, H'.
  destruct (Rgtb (s 0%nat) 0.9); reflexivity.
Qed.

Lemma detectFraud_low (tx : TransactionData) (s : RandomSource) :
  js_gt (parseFloat (amount tx)) (Fin 5000) = false ->
  js_gt (parseFloat (amount tx)) (Fin 1000) = false ->
  detectFraud tx s =
    (Ok {| isFraudulent := Rgtb (s 0%nat) 0.95;
           confidence := if Rgtb (s 0%nat) 0.95
                         then 95 + s 1%nat * 5 else 90 + s 1%nat * 8;
           processingTime := 100 + s 2%nat * 150;
           quantumContribution := 60 + s 3%nat * 25 |},
     advance 4 s).
Proof.
  intros H H'. unfold detectFraud, bind, Math_random. rewrite H, H'.
  destruct (Rgtb (s 0%nat) 0.95); reflexivity.
Qed.

(** [detectFraud] always settles on a result, after four draws, and the
    last two fields do not depend on the tier. *)
Lemma detectFraud_settles (tx : TransactionData) (s : RandomSource) :
  exists d : DetectionResult,
    detectFraud tx s = (Ok d, advance 4 s) /\
    processingTime d = 100 + s 2%nat * 150 /\
    quantumContribution d = 60 + s 3%nat * 25.
Proof.
  destruct (js_gt (parseFloat (amount tx)) (Fin 5000)) eqn:H5.
  - eexists. split; [apply (detectFraud_high tx s H5)|]. split; reflexivity.
  - destruct (js_gt (parseFloat (amount tx)) (Fin 1000)) eqn:H1.
    + eexists. split; [apply (detectFraud_medium tx s H5 H1)|].
      split; reflexivity.
    + eexists. split; [apply (detectFraud_low tx s H5 H1)|].
      split; reflexivity.
Qed.

(** The fraud event of each tier is a threshold event on the first draw. *)
Lemma fraud_probability_high (tx : TransactionData) :
  js_gt (parseFloat (amount tx)) (Fin 5000) = true ->
  fraud_probability tx 0.3.
Proof.
  intros H rest.
  apply has_probability_ext with (E := fun r => Rgtb r 0.7).
  - intros r. unfold fraud_verdict, run.
    now rewrite (detectFraud_high tx _ H).
  - replace 0.3 with (1 - 0.7) by lra. apply threshold_probability. lra.
Qed.

Lemma fraud_probability_medium (tx : TransactionData) :
  js_gt (parseFloat (amount tx)) (Fin 5000) = false ->
  js_gt (parseFloat (amount tx)) (Fin 1000) = true ->
  fraud_probability tx 0.1.
Proof.
  intros H H' rest.
  apply has_probability_ext with (E := fun r => Rgtb r 0.9).
  - intros r. unfold fraud_verdict, run.
    now rewrite (detectFraud_medium tx _ H H').
  - replace 0.1 with (1 - 0.9) by lra. apply threshold_probability. lra.
Qed.

Lemma fraud_probability_low (tx : TransactionData) :
  js_gt (parseFloat (amount tx)) (Fin 5000) = false ->
  js_gt (parseFloat (amount tx)) (Fin 1000) = false ->
  fraud_probability tx 0.05.
Proof.
  intros H H' rest.
  apply has_probability_ext with (E := fun r => Rgtb r 0.95).
  - intros r. unfold fraud_verdict, run.
    now rewrite (detectFraud_low tx _ H H').
  - replace 0.05 with (1 - 0.95) by lra. apply threshold_probability. lra.
Qed.

(** ** The scoring contract of [detectFraud] *)

Lemma unit_draws_constant (r : R) : 0 <= r < 1 -> unit_draws (constant_source r).
Proof. intros H n. exact H. Qed.

(** Closes a range goal on a result built from the draws of [s]. *)
Ltac draw_bounds Hs :=
  pose proof (Hs 0%nat); pose proof (Hs 1%nat);
  pose proof (Hs 2%nat); pose proof (Hs 3%nat);
  cbn [isFraudulent confidence processingTime quantumContribution];
  repeat match goal with
         | |- context [Rgtb ?x ?y] => destruct (Rgtb x y)
         end;
  repeat split; intros; try discriminate; lra.

(** C1. For every transaction whose amount parses to a number [a], the
    result of [detectFraud] obeys the contract of the tier of [a]: above
    5000 it is fraudulent with probability 30%, with a confidence in
    [85,95] when fraudulent and [75,90] when not; above 1000 and at most
    5000, 10%, [90,95] and [85,95]; at most 1000, 5%, [95,100] and [90,98].
    The probability is that of the event on a uniform first draw. *)
Theorem detectFraud_three_tiers
    (tx : TransactionData) (a : jsnum) (s : RandomSource) :
  parseFloat (amount tx) = a ->
  unit_draws s ->
  exists d : DetectionResult,
    run (detectFraud tx) s = Ok d /\
    (num_gt a 5000 -> tier_contract tx d 0.3 85 95 75 90) /\
    (num_gt a 1000 /\ num_le a 5000 -> tier_contract tx d 0.1 90 95 85 95) /\
    (num_le a 1000 -> tier_contract tx d 0.05 95 100 90 98).
Proof.
  intros Ha Hs. destruct (detectFraud_settles tx s) as [d [Hd _]].
  exists d. split; [unfold run; now rewrite Hd|].
  rewrite <- Ha. split; [|split].
  - intros H. pose proof (num_gt_js_gt _ _ H) as G5.
    split; [now apply fraud_probability_high|].
    rewrite (detectFraud_high tx s G5) in Hd.
    injection Hd as <-. draw_bounds Hs.
  - intros [H1 H5]. pose proof (num_gt_js_gt _ _ H1) as G1.
    pose proof (num_le_js_gt _ _ H5) as G5.
    split; [now apply fraud_probability_medium|].
    rewrite (detectFraud_medium tx s G5 G1) in Hd.
    injection Hd as <-. draw_bounds Hs.
  - intros H1.
    assert (H5 : num_le (parseFloat (amount tx)) 5000).
    { destruct (parseFloat (amount tx)); simpl in *; try easy; lra. }
    pose proof (num_le_js_gt _ _ H1) as G1.
    pose proof (num_le_js_gt _ _ H5) as G5.
    split; [now apply fraud_probability_low|].
    rewrite (detectFraud_low tx s G5 G1) in Hd.
    injection Hd as <-. draw_bounds Hs.
Qed.

(** The three tiers at the amounts 6000, 1250.00 and 50, every draw 1/2. *)
Lemma detectFraud_three_tiers_witness :
  (exists d, run (detectFraud (sample_transaction "6000"))
                 (constant_source 0.5) = Ok d /\
             tier_contract (sample_transaction "6000") d 0.3 85 95 75 90) /\
  (exists d, run (detectFraud (sample_transaction "1250.00"))
                 (constant_source 0.5) = Ok d /\
             tier_contract (sample_transaction "1250.00") d 0.1 90 95 85 95) /\
  (exists d, run (detectFraud (sample_transaction "50"))
                 (constant_source 0.5) = Ok d /\
             tier_contract (sample_transaction "50") d 0.05 95 100 90 98).
Proof.
  assert (Hs : unit_draws (constant_source 0.5))
    by (apply unit_draws_constant; lra).
  repeat split.
  - destruct (detectFraud_three_tiers (sample_transaction "6000") (Fin 6000)
                (constant_source 0.5) parseFloat_6000 Hs)
      as [d [Hd [H _]]].
    exists d. split; [exact Hd|]. apply H. simpl. lra.
  - destruct (detectFraud_three_tiers (sample_transaction "1250.00")
                (Fin 1250) (constant_source 0.5) parseFloat_1250 Hs)
      as [d [Hd [_ [H _]]]].
    exists d. split; [exact Hd|]. apply H. simpl. lra.
  - destruct (detectFraud_three_tiers (sample_transaction "50") (Fin 50)
                (constant_source 0.5) parseFloat_50 Hs)
      as [d [Hd [_ [_ H]]]].
    exists d. split; [exact Hd|]. apply H. simpl. lra.
Defined.

(** C2. For every transaction whose amount parses to a number that is at
    least 0, and every source of draws in [0,1), the result of [detectFraud]
    has its confidence and its quantum contribution in [0,100] and a
    positive processing time, in every tier. *)
Theorem detectFraud_fields_in_range
    (tx : TransactionData) (a : R) (s : RandomSource) :
  parseFloat (amount tx) = Fin a ->
  0 <= a ->
  unit_draws s ->
  exists d : DetectionResult,
    run (detectFraud tx) s = Ok d /\
    0 <= confidence d <= 100 /\
    0 <= quantumContribution d <= 100 /\
    processingTime d > 0.
Proof.
  intros Ha _ Hs. unfold run.
  destruct (js_gt (parseFloat (amount tx)) (Fin 5000)) eqn:H5;
    [rewrite (detectFraud_high tx s H5)
    |destruct (js_gt (parseFloat (amount tx)) (Fin 1000)) eqn:H1;
       [rewrite (detectFraud_medium tx s H5 H1)
       |rewrite (detectFraud_low tx s H5 H1)]];
    eexists; (split; [reflexivity|]); draw_bounds Hs.
Qed.

Lemma detectFraud_fields_in_range_witness :
  exists d : DetectionResult,
    run (detectFraud (sample_transaction "1250.00")) (constant_source 0.5)
      = Ok d /\
    0 <= confidence d <= 100 /\
    0 <= quantumContribution d <= 100 /\
    processingTime d > 0.
Proof.
  apply (detectFraud_fields_in_range (sample_transaction "1250.00") 1250
           (constant_source 0.5) parseFloat_1250).
  - lra.
  - apply unit_draws_constant; lra.
Defined.

(** ** The simulated fields *)

Lemma Rgtb_affine (b w r x : R) :
  0 < w -> Rgtb (b + r * w) x = Rgtb r ((x - b) / w).
Proof.
  intros Hw.
  assert (E : (x - b) / w * w = x - b) by (field; lra).
  destruct (Rgtb r ((x - b) / w)) eqn:G.
  - apply Rgtb_true in G. apply Rgtb_true. nra.
  - apply Rgtb_false in G. apply Rgtb_false. nra.
Qed.

Lemma processingTime_uniform (tx : TransactionData) :
  uniformly_drawn processingTime tx 2 100 250.
Proof.
  intros s x Hx.
  apply has_probability_ext
    with (E := fun r => negb (Rgtb r ((x - 100) / 150))).
  - intros r. unfold field_at_most, run.
    destruct (detectFraud_settles tx (with_draw 2 r s)) as [d [Hd [Hp _]]].
    rewrite Hd. cbn [fst]. rewrite Hp. cbn [with_draw Nat.eqb].
    now rewrite Rgtb_affine by lra.
  - replace ((x - 100) / (250 - 100)) with ((x - 100) / 150) by (f_equal; lra).
    apply at_most_probability. lra.
Qed.

Lemma quantumContribution_uniform (tx : TransactionData) :
  uniformly_drawn quantumContribution tx 3 60 85.
Proof.
  intros s x Hx.
  apply has_probability_ext
    with (E := fun r => negb (Rgtb r ((x - 60) / 25))).
  - intros r. unfold field_at_most, run.
    destruct (detectFraud_settles tx (with_draw 3 r s)) as [d [Hd [_ Hq]]].
    rewrite Hd. cbn [fst]. rewrite Hq. cbn [with_draw Nat.eqb].
    now rewrite Rgtb_affine by lra.
  - replace ((x - 60) / (85 - 60)) with ((x - 60) / 25) by (f_equal; lra).
    apply at_most_probability. lra.
Qed.

(** C6, as the code has it. For every transaction and every source of
    draws in [0,1), the processing time of the result of [detectFraud] is
    [100 + 150 * r] for the third draw [r] and lies in [100,250), and its
    quantum contribution is [60 + 25 * r] for the fourth draw [r] and lies
    in [60,85], the upper bound included; as functions of a uniform draw,
    both are uniformly distributed on their interval. *)
Theorem detectFraud_simulated_fields
    (tx : TransactionData) (s : RandomSource) :
  unit_draws s ->
  exists d : DetectionResult,
    run (detectFraud tx) s = Ok d /\
    processingTime d = 100 + 150 * s 2%nat /\
    100 <= processingTime d < 250 /\
    quantumContribution d = 60 + 25 * s 3%nat /\
    60 <= quantumContribution d <= 85 /\
    uniformly_drawn processingTime tx 2 100 250 /\
    uniformly_drawn quantumContribution tx 3 60 85.
Proof.
  intros Hs. destruct (detectFraud_settles tx s) as [d [Hd [Hp Hq]]].
  exists d. pose proof (Hs 2%nat). pose proof (Hs 3%nat).
  split; [unfold run; now rewrite Hd|].
  rewrite Hp, Hq.
  repeat (split; [lra|]).
  split; [apply processingTime_uniform | apply quantumContribution_uniform].
Qed.

Lemma detectFraud_simulated_fields_witness :
  exists d : DetectionResult,
    run (detectFraud (sample_transaction "1250.00")) (constant_source 0.5)
      = Ok d /\
    processingTime d = 100 + 150 * 0.5 /\
    100 <= processingTime d < 250 /\
    quantumContribution d = 60 + 25 * 0.5 /\
    60 <= quantumContribution d <= 85 /\
    uniformly_drawn processingTime (sample_transaction "1250.00") 2 100 250 /\
    uniformly_drawn quantumContribution (sample_transaction "1250.00") 3 60 85.
Proof.
  apply (detectFraud_simulated_fields (sample_transaction "1250.00")
           (constant_source 0.5)).
  apply unit_draws_constant; lra.
Defined.

(** In binary64, on the amount 1250.00 and draws that are all the largest
    number below 1, the quantum contribution is 85 and not below it. *)
Lemma quantumContribution_is_85_in_binary64 :
  Binary64.is_draw Binary64.largest_draw = true /\
  Binary64.quantumContribution_is_85 Binary64.largest_draw = true /\
  Binary64.quantumContribution_below_85
    (Binary64.detectFraud Binary64.amount_1250 Binary64.largest_draws)
  = false.
Proof. repeat split. Qed.

(** ** Determinism *)

(** C7. [detectFraud] is a function of the amount of the transaction and of
    the random source, of which it reads the first four draws and nothing
    else: two calls on the same amount and on sources that agree on these
    draws settle on the same result (two calls on the same input and the
    same source in particular), and the only state a call changes is the
    source, which it leaves four draws further. *)
Theorem detectFraud_deterministic
    (tx tx' : TransactionData) (s s' : RandomSource) :
  amount tx = amount tx' ->
  (forall n : nat, (n < 4)%nat -> s n = s' n) ->
  run (detectFraud tx) s = run (detectFraud tx') s' /\
  snd (detectFraud tx s) = advance 4 s /\
  snd (detectFraud tx' s') = advance 4 s'.
Proof.
  intros Ha Hs.
  assert (E0 : s 0%nat = s' 0%nat) by (apply Hs; lia).
  assert (E1 : s 1%nat = s' 1%nat) by (apply Hs; lia).
  assert (E2 : s 2%nat = s' 2%nat) by (apply Hs; lia).
  assert (E3 : s 3%nat = s' 3%nat) by (apply Hs; lia).
  unfold run.
  destruct (js_gt (parseFloat (amount tx)) (Fin 5000)) eqn:H5;
    [rewrite (detectFraud_high tx s H5); rewrite Ha in H5;
     rewrite (detectFraud_high tx' s' H5)
    |destruct (js_gt (parseFloat (amount tx)) (Fin 1000)) eqn:H1;
       [rewrite (detectFraud_medium tx s H5 H1); rewrite Ha in H5, H1;
        rewrite (detectFraud_medium tx' s' H5 H1)
       |rewrite (detectFraud_low tx s H5 H1); rewrite Ha in H5, H1;
        rewrite (detectFraud_low tx' s' H5 H1)]];
    cbn [fst snd]; rewrite E0, E1, E2, E3; repeat split.
Qed.

(** Two sources that differ from the fifth draw on. *)
Lemma detectFraud_deterministic_witness :
  run (detectFraud (sample_transaction "1250.00")) (constant_source 0.5)
  = run (detectFraud (sample_transaction "1250.00")) late_source /\
  snd (detectFraud (sample_transaction "1250.00") (constant_source 0.5))
  = advance 4 (constant_source 0.5) /\
  snd (detectFraud (sample_transaction "1250.00") late_source)
  = advance 4 late_source.
Proof.
  apply (detectFraud_deterministic (sample_transaction "1250.00")
           (sample_transaction "1250.00")
           (constant_source 0.5) late_source).
  - reflexivity.
  - intros n Hn. unfold constant_source, late_source.
    destruct (Nat.ltb_spec n 4); [reflexivity | lia].
Defined.

(** ** Amounts that do not parse *)

(** C8, as the code has it. For every transaction whose amount does not
    parse as a number, [detectFraud] does not fail: the amount is NaN, both
    tier comparisons are false, and the low-value branch yields a result
    whose confidence lies in [90,100], the upper bound included, and which
    is fraudulent with probability 5%. *)
Theorem detectFraud_unparseable_amount
    (tx : TransactionData) (s : RandomSource) :
  parseFloat (amount tx) = NaN ->
  unit_draws s ->
  js_gt (parseFloat (amount tx)) (Fin 5000) = false /\
  js_gt (parseFloat (amount tx)) (Fin 1000) = false /\
  exists d : DetectionResult,
    run (detectFraud tx) s = Ok d /\
    isFraudulent d = Rgtb (s 0%nat) 0.95 /\
    90 <= confidence d <= 100 /\
    fraud_probability tx 0.05.
Proof.
  intros Ha Hs.
  assert (H5 : js_gt (parseFloat (amount tx)) (Fin 5000) = false)
    by now rewrite Ha.
  assert (H1 : js_gt (parseFloat (amount tx)) (Fin 1000) = false)
    by now rewrite Ha.
  split; [exact H5|]. split; [exact H1|].
  unfold run. rewrite (detectFraud_low tx s H5 H1).
  eexists. split; [reflexivity|].
  split; [reflexivity|].
  split; [draw_bounds Hs|].
  now apply fraud_probability_low.
Qed.

Lemma detectFraud_unparseable_amount_witness :
  exists d : DetectionResult,
    run (detectFraud (sample_transaction "abc")) (constant_source 0.5) = Ok d /\
    isFraudulent d = Rgtb 0.5 0.95 /\
    90 <= confidence d <= 100 /\
    fraud_probability (sample_transaction "abc") 0.05.
Proof.
  apply (detectFraud_unparseable_amount (sample_transaction "abc")
           (constant_source 0.5)).
  - reflexivity.
  - apply unit_draws_constant; lra.
Defined.

(** In binary64, on an amount that is NaN and draws that are all the
    largest number below 1, fraud is reported with a confidence of 100, not
    below it. *)
Lemma unparseable_amount_confidence_is_100_in_binary64 :
  Binary64.is_draw Binary64.largest_draw = true /\
  Binary64.isFraudulent
    (Binary64.detectFraud Binary64.amount_NaN Binary64.largest_draws)
  = true /\
  Binary64.confidence_below_100
    (Binary64.detectFraud Binary64.amount_NaN Binary64.largest_draws)
  = false.
Proof. repeat split. Qed.

(** ** The stages of [handler] *)

Lemma preprocessTransaction_run (v : json) (s : RandomSource) :
  v <> JNull ->
  amount_throws v = false ->
  preprocessTransaction v s = (Ok (features_of v s), advance 6 s).
Proof.
  unfold amount_throws.
  destruct v; intros H Ha; try contradiction; try reflexivity.
  unfold preprocessTransaction, features_of, bind, get, Number_parseFloat.
  cbn [property] in *. unfold ret at 1.
  destruct (lookup "amount" fields) as [a|]; [|reflexivity].
  rewrite Ha. reflexivity.
Qed.

Lemma preprocessTransaction_null (s : RandomSource) :
  preprocessTransaction JNull s = (Throw TypeError, s).
Proof. reflexivity. Qed.

(** The amount is the first property of the object literal: when its
    conversion throws, no draw has been made. *)
Lemma preprocessTransaction_throws (v : json) (s : RandomSource) :
  amount_throws v = true ->
  preprocessTransaction v s = (Throw TypeError, s).
Proof.
  unfold amount_throws.
  destruct v; cbn [property]; intros Ha; try discriminate.
  unfold preprocessTransaction, bind, get, Number_parseFloat.
  unfold ret at 1.
  destruct (lookup "amount" fields) as [a|]; [|discriminate].
  rewrite Ha. reflexivity.
Qed.

Lemma runClassicalMLModel_run (f : Feature.t) (s : RandomSource) :
  runClassicalMLModel f s = (Ok (prediction_of f (s 0%nat)), advance 1 s).
Proof. reflexivity. Qed.

Lemma runQuantumAnnealingSolver_run (f : Feature.t) (s : RandomSource) :
  exists q : Quantum.t,
    runQuantumAnnealingSolver f s = (Ok q, advance 1 s).
Proof. eexists. reflexivity. Qed.

Lemma screening_run (v : json) (s : RandomSource) :
  v <> JNull ->
  amount_throws v = false ->
  screening v s =
    (Ok (features_of v s, prediction_of (features_of v s) (s 6%nat)),
     advance 7 s).
Proof.
  intros H Ha. unfold screening, bind.
  rewrite (preprocessTransaction_run v s H Ha). reflexivity.
Qed.

Lemma screening_null (s : RandomSource) :
  screening JNull s = (Throw TypeError, s).
Proof. reflexivity. Qed.

Lemma screening_throws (v : json) (s : RandomSource) :
  amount_throws v = true -> screening v s = (Throw TypeError, s).
Proof.
  intros Ha. unfold screening, bind.
  now rewrite (preprocessTransaction_throws v s Ha).
Qed.

(** A screening that returns was run on a value that is not [null] and
    whose amount converts. *)
Lemma screening_ok_inv (v : json) (s s' : RandomSource)
    (f : Feature.t) (p : Classical.t) :
  screening v s = (Ok (f, p), s') ->
  v <> JNull /\ amount_throws v = false.
Proof.
  intros H. split.
  - intros ->. rewrite screening_null in H. discriminate.
  - destruct (amount_throws v) eqn:Ha; [|reflexivity].
    rewrite (screening_throws v s Ha) in H. discriminate.
Qed.

(** The features of a transaction-shaped value carry its parsed amount. *)
Lemma features_of_transaction (v : json) (tx : TransactionData)
    (s : RandomSource) :
  as_TransactionData v = Some tx ->
  v <> JNull /\
  Feature.amount (features_of v s) = parseFloat (amount tx).
Proof.
  destruct v; try discriminate. intros H. split; [discriminate|].
  cbn [features_of Feature.amount property]. cbn [as_TransactionData] in H.
  destruct (lookup "amount" fields) as [[| | |a| |]|]; try discriminate.
  repeat match type of H with
         | match ?x with _ => _ end = _ => destruct x; try discriminate
         end.
  now injection H as <-.
Qed.

(** The amount of a transaction-shaped value is a string: it converts. *)
Lemma transaction_amount_converts (v : json) (tx : TransactionData) :
  as_TransactionData v = Some tx -> amount_throws v = false.
Proof.
  destruct v; try discriminate. intros H.
  unfold amount_throws. cbn [property]. cbn [as_TransactionData] in H.
  destruct (lookup "amount" fields) as [[| | |a| |]|]; try discriminate.
  reflexivity.
Qed.

(** The draws of a unit source give sub-scores in [0,0.5). *)
Lemma features_of_bounded (v : json) (s : RandomSource) :
  unit_draws s -> sub_scores_bounded (features_of v s).
Proof.
  intros Hs. unfold sub_scores_bounded. cbn.
  pose proof (Hs 0%nat). pose proof (Hs 1%nat). pose proof (Hs 2%nat).
  pose proof (Hs 3%nat). pose proof (Hs 4%nat). pose proof (Hs 5%nat).
  repeat split; lra.
Qed.

(** [handler] on a body that parses to a value other than [null] whose
    amount converts: the gate on the classical confidence decides between
    the two results. *)
Lemma handler_on_value (JSON_parse : string -> option json)
    (body : string) (v : json) (s : RandomSource) :
  JSON_parse body = Some v ->
  v <> JNull ->
  amount_throws v = false ->
  let f := features_of v s in
  let p := prediction_of f (s 6%nat) in
  (Classical.confidenceScore p < 0.85 ->
   exists q : Quantum.t,
     runQuantumAnnealingSolver f (advance 7 s) = (Ok q, advance 8 s) /\
     handler JSON_parse (Event body) s =
       (Ok (ok_response (quantum_final q)), advance 8 s)) /\
  (0.85 <= Classical.confidenceScore p ->
   handler JSON_parse (Event body) s =
     (Ok (ok_response (classical_final p)), advance 7 s)).
Proof.
  intros Hp Hv Ha f p. split; intros Hc.
  - destruct (runQuantumAnnealingSolver_run f (advance 7 s)) as [q Hq].
    exists q. split; [exact Hq|].
    unfold handler, try_catch, bind, parse_event_body. rewrite Hp.
    unfold ret at 1. rewrite (preprocessTransaction_run v s Hv Ha).
    rewrite runClassicalMLModel_run. fold f.
    change (advance 6 s 0%nat) with (s 6%nat).
    fold p. apply Rltb_true in Hc. rewrite Hc.
    change (advance 1 (advance 6 s)) with (advance 7 s). rewrite Hq.
    reflexivity.
  - unfold handler, try_catch, bind, parse_event_body. rewrite Hp.
    unfold ret at 1. rewrite (preprocessTransaction_run v s Hv Ha).
    rewrite runClassicalMLModel_run. fold f.
    change (advance 6 s 0%nat) with (s 6%nat).
    fold p. apply Rltb_false in Hc. rewrite Hc. reflexivity.
Qed.

(** [handler] on input on which the [try] block throws. *)
Lemma handler_on_throw (JSON_parse : string -> option json)
    (ev : event) (s : RandomSource) :
  try_block_throws JSON_parse ev ->
  handler JSON_parse ev s = (Ok error_response, s).
Proof.
  destruct ev as [| |body]; [reflexivity | reflexivity |].
  cbn [try_block_throws].
  destruct (JSON_parse body) as [v|] eqn:Hp.
  - intros [->|Ha]; unfold handler, try_catch, bind, parse_event_body;
      rewrite Hp; unfold ret at 1.
    + reflexivity.
    + now rewrite (preprocessTransaction_throws v s Ha).
  - intros _. unfold handler, try_catch, bind, parse_event_body.
    now rewrite Hp.
Qed.

(** Input on which the [try] block does not throw. *)
Lemma not_throws_inv (JSON_parse : string -> option json) (ev : event) :
  ~ try_block_throws JSON_parse ev ->
  exists (body : string) (v : json),
    ev = Event body /\ JSON_parse body = Some v /\
    v <> JNull /\ amount_throws v = false.
Proof.
  destruct ev as [| |body]; cbn [try_block_throws];
    [intros H; now destruct H | intros H; now destruct H |].
  destruct (JSON_parse body) as [v|] eqn:Hp.
  - intros H. exists body, v. split; [reflexivity|]. split; [exact Hp|].
    split.
    + intros ->. apply H. now left.
    + destruct (amount_throws v); [|reflexivity]. exfalso. apply H. now right.
  - intros H. now destruct H.
Qed.

Lemma try_block_throws_dec (JSON_parse : string -> option json) (ev : event) :
  try_block_throws JSON_parse ev \/ ~ try_block_throws JSON_parse ev.
Proof.
  destruct ev as [| |body]; cbn [try_block_throws];
    [now left | now left |].
  destruct (JSON_parse body) as [v|]; [|now left].
  destruct (amount_throws v); [left; now right|].
  assert (Hd : v = JNull \/ v <> JNull)
    by (destruct v; (now left) || (right; discriminate)).
  destruct Hd as [->|Hv]; [left; now left|].
  right. intros [H|H]; [contradiction | discriminate].
Qed.

Lemma ok_response_inj (d d' : DetectionResult) :
  ok_response d = ok_response d' -> d = d'.
Proof.
  destruct d, d'. unfold ok_response, json_of_DetectionResult. cbn.
  intros H. injection H as -> -> -> ->. reflexivity.
Qed.

(** [handler] always settles on a response, of one of the two shapes. *)
Lemma handler_settles (JSON_parse : string -> option json)
    (ev : event) (s : RandomSource) :
  (try_block_throws JSON_parse ev /\
   handler JSON_parse ev s = (Ok error_response, s)) \/
  (~ try_block_throws JSON_parse ev /\
   exists (d : DetectionResult) (s' : RandomSource),
     handler JSON_parse ev s = (Ok (ok_response d), s') /\
     (quantumContribution d = 75 \/ quantumContribution d = 25)).
Proof.
  destruct (try_block_throws_dec JSON_parse ev) as [T|T].
  - left. split; [exact T | now apply handler_on_throw].
  - right. split; [exact T|].
    destruct (not_throws_inv JSON_parse ev T)
      as (body & v & -> & Hp & Hv & Ha).
    destruct (handler_on_value JSON_parse body v s Hp Hv Ha) as [Hq Hc].
    destruct (Rlt_dec
                (Classical.confidenceScore
                   (prediction_of (features_of v s) (s 6%nat))) 0.85)
      as [L|L].
    + destruct (Hq L) as [q [_ Hh]].
      exists (quantum_final q), (advance 8 s). split; [exact Hh|now left].
    + assert (L' : 0.85 <= Classical.confidenceScore
                      (prediction_of (features_of v s) (s 6%nat)))
        by lra.
      eexists _, (advance 7 s). split; [exact (Hc L')|now right].
Qed.

(** The classical prediction for the sample transaction of amount [abc]
    when every draw is [r]: the risk score is [0.12 + 0.3 * r]. *)
Lemma sample_riskScore (r : R) :
  riskScore (features_of (json_of_TransactionData (sample_transaction "abc"))
                         (constant_source r)) = 0.12 + 0.3 * r.
Proof.
  unfold riskScore, features_of, constant_source.
  cbn [Feature.amount Feature.customerRiskScore Feature.merchantRiskScore
       Feature.locationRiskScore Feature.deviceRiskScore
       Feature.ipRiskScore Feature.timeOfDayRiskScore].
  change (Number_parseFloat_value
            (property (json_of_TransactionData (sample_transaction "abc"))
                      "amount")) with NaN.
  cbn [js_gt]. lra.
Qed.

Lemma sample_riskScore_zero :
  prediction_of
    (features_of (json_of_TransactionData (sample_transaction "abc"))
                 (constant_source 0))
    (constant_source 0 6%nat)
  = {| Classical.isFraudulent := Rgtb 0.12 0.6;
       Classical.confidenceScore := if Rgtb 0.12 0.6 then 0.12 else 1 - 0.12;
       Classical.processingTime := 50 + 0 * 30 |}.
Proof.
  unfold prediction_of. rewrite sample_riskScore.
  replace (0.12 + 0.3 * 0) with 0.12 by lra. reflexivity.
Qed.

(** ** The request/response boundary *)

(** C4, as the code has it. For every request body that parses as a
    transaction, [handler] runs the classical screening first, on the first
    seven draws, and runs the quantum stage, on one more draw, exactly when
    the classical confidence is below 0.85; either way the response has
    status 200 and carries the detection result.  The response is the error
    object with status 500 on the input on which the [try] block throws (no
    event or readable body, a body that is not JSON, the text [null], an
    amount whose conversion to a text throws), and on every other input,
    the bodies that are JSON but no transaction included, it has status 200
    and carries a detection result. *)
Theorem handler_two_stage (JSON_parse : string -> option json)
    (ev : event) (s : RandomSource) :
  (forall (body : string) (v : json) (tx : TransactionData),
     ev = Event body ->
     JSON_parse body = Some v ->
     as_TransactionData v = Some tx ->
     exists (f : Feature.t) (p : Classical.t),
       screening v s = (Ok (f, p), advance 7 s) /\
       Feature.amount f = parseFloat (amount tx) /\
       (Classical.confidenceScore p < 0.85 ->
        exists q : Quantum.t,
          runQuantumAnnealingSolver f (advance 7 s) = (Ok q, advance 8 s) /\
          handler JSON_parse ev s =
            (Ok (ok_response (quantum_final q)), advance 8 s)) /\
       (0.85 <= Classical.confidenceScore p ->
        handler JSON_parse ev s =
          (Ok (ok_response (classical_final p)), advance 7 s))) /\
  (try_block_throws JSON_parse ev ->
   handler JSON_parse ev s = (Ok error_response, s) /\
   statusCode error_response = 500%Z /\
   body error_response = json_of_error "Failed to process transaction") /\
  (~ try_block_throws JSON_parse ev ->
   exists (d : DetectionResult) (s' : RandomSource),
     handler JSON_parse ev s = (Ok (ok_response d), s') /\
     statusCode (ok_response d) = 200%Z).
Proof.
  split; [|split].
  - intros body v tx -> Hp Htx.
    destruct (features_of_transaction v tx s Htx) as [Hv Ha].
    pose proof (transaction_amount_converts v tx Htx) as Hc.
    exists (features_of v s), (prediction_of (features_of v s) (s 6%nat)).
    split; [now apply screening_run|]. split; [exact Ha|].
    exact (handler_on_value JSON_parse body v s Hp Hv Hc).
  - intros T. split; [now apply handler_on_throw|]. now split.
  - intros T.
    destruct (handler_settles JSON_parse ev s)
      as [[T' _]|[_ [d [s' [H _]]]]]; [contradiction|].
    exists d, s'. now split.
Qed.

(** The sample transaction with every draw 0: the classical confidence is
    0.88 and the classical result is returned; a text that is not JSON gets
    the error response. *)
Lemma handler_two_stage_witness :
  (exists p : Classical.t,
     handler sample_parse (Event "tx") (constant_source 0) =
       (Ok (ok_response (classical_final p)),
        advance 7 (constant_source 0))) /\
  handler sample_parse (Event "{") (constant_source 0) =
    (Ok error_response, constant_source 0).
Proof.
  destruct (handler_two_stage sample_parse (Event "tx") (constant_source 0))
    as [H _].
  destruct (H "tx"%string
              (json_of_TransactionData (sample_transaction "abc"))
              (sample_transaction "abc") eq_refl eq_refl eq_refl)
    as [f [p [Hs [_ [_ Hc]]]]].
  split.
  - exists p. apply Hc.
    rewrite screening_run in Hs by (discriminate || reflexivity).
    injection Hs as _ <-.
    rewrite sample_riskScore_zero. cbn [Classical.confidenceScore].
    destruct (Rgtb 0.12 0.6) eqn:G.
    + apply Rgtb_true in G. lra.
    + lra.
  - destruct (handler_two_stage sample_parse (Event "{") (constant_source 0))
      as [_ [H' _]]. apply H'. exact I.
Defined.

(** The body [50] is JSON and no transaction, and the response to it has
    status 200 and carries a detection result: no error is reported. *)
Lemma non_transaction_body_gets_200 :
  sample_parse "50" = Some (JNumber 50) /\
  as_TransactionData (JNumber 50) = None /\
  exists d : DetectionResult,
    run (handler sample_parse (Event "50")) (constant_source 0)
      = Ok (ok_response d) /\
    statusCode (ok_response d) = 200%Z.
Proof.
  split; [reflexivity|]. split; [reflexivity|].
  destruct (handler_settles sample_parse (Event "50") (constant_source 0))
    as [[[T|T] _]|[_ [d [s' [H _]]]]]; try discriminate.
  exists d. unfold run. rewrite H. now split.
Qed.

(** C5, as the code has it. For every input event, [handler] settles on a
    response and never throws: a failure response has status 500 and the
    body [{ error: "Failed to process transaction" }], a success response
    has status 200 and the body of a detection result, and the failure
    response, with status 500, is given exactly on the input on which the
    [try] block throws: no event or readable body, a body that is not JSON,
    the text [null], an amount whose conversion to a text throws.  Every
    other input, the bodies that are JSON but no transaction included, gets
    a success response. *)
Theorem handler_never_throws (JSON_parse : string -> option json)
    (ev : event) (s : RandomSource) :
  exists (r : response) (s' : RandomSource),
    handler JSON_parse ev s = (Ok r, s') /\
    ((statusCode r = 500%Z /\
      body r = json_of_error "Failed to process transaction") \/
     (statusCode r = 200%Z /\
      exists d : DetectionResult, body r = json_of_DetectionResult d)) /\
    (try_block_throws JSON_parse ev <-> statusCode r = 500%Z).
Proof.
  destruct (handler_settles JSON_parse ev s) as [[M H]|[M [d [s' [H _]]]]].
  - exists error_response, s. split; [exact H|]. split; [now left|].
    split; intros; [reflexivity | exact M].
  - exists (ok_response d), s'. split; [exact H|]. split.
    + right. split; [reflexivity|]. now exists d.
    + split; [intros M'; contradiction | discriminate].
Qed.

(** An amount that is an object with a key [toString]: the conversion
    throws, and the response is the error response. *)
Example handler_on_unconvertible_amount :
  handler unconvertible_parse (Event "body") (constant_source 0)
  = (Ok error_response, constant_source 0).
Proof. reflexivity. Qed.

(** The response to a text that is not JSON has status 500, which is not a
    client-error status; and the body [50], which is no transaction, is not
    reported as an error at all: the response has status 200. *)
Lemma malformed_input_status_is_not_4xx :
  (sample_parse "{" = None /\
   exists r : response,
     run (handler sample_parse (Event "{")) (constant_source 0) = Ok r /\
     statusCode r = 500%Z /\
     ~ (400 <= statusCode r < 500)%Z) /\
  (sample_parse "50" = Some (JNumber 50) /\
   as_TransactionData (JNumber 50) = None /\
   exists r : response,
     run (handler sample_parse (Event "50")) (constant_source 0) = Ok r /\
     statusCode r = 200%Z).
Proof.
  split.
  - split; [reflexivity|].
    exists error_response. split; [reflexivity|]. split; [reflexivity|].
    cbn. lia.
  - split; [reflexivity|]. split; [reflexivity|].
    destruct (handler_settles sample_parse (Event "50") (constant_source 0))
      as [[[T|T] _]|[_ [d [s' [H _]]]]]; try discriminate.
    exists (ok_response d). unfold run. rewrite H. now split.
Qed.

(** C3, as the code has it. For every transaction whose amount does not
    parse as a non-negative decimal number, neither entry point fails:
    [detectFraud] settles on a result, which is that of the low-value branch
    unless the amount is [Infinity], and [handler], on a body that parses to
    the transaction, answers with status 200 and a detection result. *)
Theorem invalid_amount_is_scored (JSON_parse : string -> option json)
    (tx : TransactionData) (s : RandomSource) :
  invalid_amount (parseFloat (amount tx)) ->
  (exists d : DetectionResult,
     run (detectFraud tx) s = Ok d /\
     (parseFloat (amount tx) <> PosInf ->
      isFraudulent d = Rgtb (s 0%nat) 0.95 /\
      confidence d = if Rgtb (s 0%nat) 0.95
                     then 95 + s 1%nat * 5 else 90 + s 1%nat * 8)) /\
  (forall (body : string) (v : json),
     JSON_parse body = Some v ->
     as_TransactionData v = Some tx ->
     exists d : DetectionResult,
       run (handler JSON_parse (Event body)) s = Ok (ok_response d)).
Proof.
  intros Hi. split.
  - destruct (parseFloat (amount tx)) as [| | |a] eqn:Ha.
    + unfold run. rewrite detectFraud_low by now rewrite Ha.
      eexists. split; [reflexivity|]. intros _. split; reflexivity.
    + unfold run. rewrite detectFraud_low by now rewrite Ha.
      eexists. split; [reflexivity|]. intros _. split; reflexivity.
    + destruct (detectFraud_settles tx s) as [d [Hd _]].
      exists d. split; [unfold run; now rewrite Hd | congruence].
    + simpl in Hi. unfold run.
      rewrite detectFraud_low
        by (rewrite Ha; cbn [js_gt]; apply Rgtb_false; lra).
      eexists. split; [reflexivity|]. intros _. split; reflexivity.
  - intros body v Hp Htx.
    destruct (features_of_transaction v tx s Htx) as [Hv _].
    pose proof (transaction_amount_converts v tx Htx) as Hc.
    destruct (handler_settles JSON_parse (Event body) s)
      as [[T _]|[_ [d [s' [H _]]]]].
    + exfalso. cbn [try_block_throws] in T. rewrite Hp in T.
      destruct T; [contradiction | congruence].
    + exists d. unfold run. now rewrite H.
Qed.

Lemma invalid_amount_is_scored_witness :
  (exists d : DetectionResult,
     run (detectFraud (sample_transaction "abc")) (constant_source 0) = Ok d) /\
  (exists d : DetectionResult,
     run (handler sample_parse (Event "tx")) (constant_source 0)
       = Ok (ok_response d)).
Proof.
  destruct (invalid_amount_is_scored sample_parse (sample_transaction "abc")
              (constant_source 0) I) as [[d [Hd _]] Hh].
  split.
  - now exists d.
  - apply (Hh "tx"%string
              (json_of_TransactionData (sample_transaction "abc")));
      reflexivity.
Defined.

(** The amount [abc] is NaN, and yet [detectFraud] settles on a result and
    [handler] answers with status 200: no error is raised at all. *)
Lemma unparseable_amount_is_not_rejected :
  parseFloat (amount (sample_transaction "abc")) = NaN /\
  run (detectFraud (sample_transaction "abc")) (constant_source 0)
    = Ok {| isFraudulent := false;
            confidence := 90 + 0 * 8;
            processingTime := 100 + 0 * 150;
            quantumContribution := 60 + 0 * 25 |} /\
  (forall e : exn,
     run (detectFraud (sample_transaction "abc")) (constant_source 0)
       <> Throw e) /\
  exists r : response,
    run (handler sample_parse (Event "tx")) (constant_source 0) = Ok r /\
    statusCode r = 200%Z.
Proof.
  assert (G : Rgtb 0 0.95 = false) by (apply Rgtb_false; lra).
  assert (H : run (detectFraud (sample_transaction "abc")) (constant_source 0)
              = Ok {| isFraudulent := false;
                      confidence := 90 + 0 * 8;
                      processingTime := 100 + 0 * 150;
                      quantumContribution := 60 + 0 * 25 |}).
  { unfold run. rewrite detectFraud_low by reflexivity.
    unfold constant_source. now rewrite G. }
  split; [reflexivity|]. split; [exact H|]. split.
  - intros e. rewrite H. discriminate.
  - destruct (handler_settles sample_parse (Event "tx") (constant_source 0))
      as [[[M|M] _]|[_ [d [s' [Hh _]]]]]; try discriminate.
    exists (ok_response d). unfold run. rewrite Hh. now split.
Qed.

(** ** The classical screening *)

Lemma riskScore_bound (f : Feature.t) :
  sub_scores_bounded f -> 0.12 <= riskScore f < 0.58.
Proof.
  unfold sub_scores_bounded, riskScore. intros H.
  destruct (js_gt (Feature.amount f) (Fin 1000)); lra.
Qed.

(** C9. The classical screening never classifies a transaction as
    fraudulent: for every feature vector with sub-scores in [0,0.5) the
    weighted risk score is at most 0.4*0.7 + 0.6*0.5 = 0.58, below 0.6, and
    [runClassicalMLModel] reports [isFraudulent = false]; hence, whenever
    [handler] takes the classical path (classical confidence at least 0.85),
    its 200 response reports [isFraudulent = false]. *)
Theorem classical_never_fraudulent :
  (forall (f : Feature.t) (s : RandomSource),
     sub_scores_bounded f ->
     riskScore f <= 0.4 * 0.7 + 0.6 * 0.5 /\
     0.4 * 0.7 + 0.6 * 0.5 = 0.58 /\
     0.58 < 0.6 /\
     exists p : Classical.t,
       run (runClassicalMLModel f) s = Ok p /\
       Classical.isFraudulent p = false) /\
  (forall (JSON_parse : string -> option json) (body : string) (v : json)
          (s s' : RandomSource) (f : Feature.t) (p : Classical.t),
     unit_draws s ->
     JSON_parse body = Some v ->
     screening v s = (Ok (f, p), s') ->
     0.85 <= Classical.confidenceScore p ->
     exists d : DetectionResult,
       handler JSON_parse (Event body) s = (Ok (ok_response d), s') /\
       d = classical_final p /\
       isFraudulent d = false).
Proof.
  split.
  - intros f s Hf. pose proof (riskScore_bound f Hf) as Hr.
    split; [lra|]. split; [lra|]. split; [lra|].
    unfold run. rewrite runClassicalMLModel_run.
    eexists. split; [reflexivity|].
    cbn [prediction_of Classical.isFraudulent]. apply Rgtb_false. lra.
  - intros JSON_parse body v s s' f p Hs Hp Hsc Hc.
    destruct (screening_ok_inv v s s' f p Hsc) as [Hv Ha].
    rewrite (screening_run v s Hv Ha) in Hsc.
    injection Hsc as <- <- <-.
    destruct (handler_on_value JSON_parse body v s Hp Hv Ha) as [_ H].
    exists (classical_final (prediction_of (features_of v s) (s 6%nat))).
    split; [exact (H Hc)|]. split; [reflexivity|].
    cbn [classical_final isFraudulent prediction_of Classical.isFraudulent].
    apply Rgtb_false.
    pose proof (riskScore_bound _ (features_of_bounded v s Hs)). lra.
Qed.

Lemma classical_never_fraudulent_witness :
  exists d : DetectionResult,
    handler sample_parse (Event "tx") (constant_source 0)
      = (Ok (ok_response d), advance 7 (constant_source 0)) /\
    isFraudulent d = false.
Proof.
  destruct classical_never_fraudulent as [_ H].
  assert (Hv : json_of_TransactionData (sample_transaction "abc") <> JNull)
    by discriminate.
  assert (Hs : unit_draws (constant_source 0))
    by (apply unit_draws_constant; lra).
  assert (Hc : 0.85 <= Classical.confidenceScore
                 (prediction_of
                    (features_of
                       (json_of_TransactionData (sample_transaction "abc"))
                       (constant_source 0))
                    (constant_source 0 6%nat))).
  { rewrite sample_riskScore_zero. cbn [Classical.confidenceScore].
    destruct (Rgtb 0.12 0.6) eqn:G.
    - apply Rgtb_true in G. lra.
    - lra. }
  destruct (H sample_parse "tx"%string
              (json_of_TransactionData (sample_transaction "abc"))
              (constant_source 0) (advance 7 (constant_source 0))
              _ _ Hs eq_refl
              (screening_run _ (constant_source 0) Hv eq_refl) Hc)
    as [d [Hd [_ Hf]]].
  now exists d.
Defined.

(** ** The quantum contribution of [handler] *)

(** C10. Every successful response of [handler] has a quantum contribution
    of exactly 75, when the quantum stage ran, or exactly 25, when the
    classical result was returned: it is a constant of the path, not a draw
    from 60 to 85 as in [detectFraud], and it lies in [0,100]. *)
Theorem handler_quantumContribution (JSON_parse : string -> option json)
    (ev : event) (s : RandomSource) (r : response) :
  run (handler JSON_parse ev) s = Ok r ->
  statusCode r = 200%Z ->
  exists d : DetectionResult,
    r = ok_response d /\
    (quantumContribution d = 75 \/ quantumContribution d = 25) /\
    0 <= quantumContribution d <= 100 /\
    (forall (body : string) (v : json) (f : Feature.t) (p : Classical.t)
            (s' : RandomSource),
       ev = Event body ->
       JSON_parse body = Some v ->
       screening v s = (Ok (f, p), s') ->
       quantumContribution d =
         if Rltb (Classical.confidenceScore p) 0.85 then 75 else 25).
Proof.
  intros Hr H200. unfold run in Hr.
  destruct (handler_settles JSON_parse ev s)
    as [[_ H]|[_ [d [s1 [H Hq]]]]].
  - rewrite H in Hr. injection Hr as <-. discriminate.
  - rewrite H in Hr. injection Hr as <-.
    exists d. split; [reflexivity|]. split; [exact Hq|].
    split; [destruct Hq as [-> | ->]; lra|].
    intros body v f p s' -> Hp Hsc.
    destruct (screening_ok_inv v s s' f p Hsc) as [Hv Ha].
    rewrite (screening_run v s Hv Ha) in Hsc. injection Hsc as <- <- <-.
    destruct (handler_on_value JSON_parse body v s Hp Hv Ha) as [Hlt Hge].
    destruct (Rltb _ 0.85) eqn:G.
    + apply Rltb_true in G. destruct (Hlt G) as [q [_ Hh]].
      rewrite Hh in H.
      assert (E : ok_response (quantum_final q) = ok_response d)
        by congruence.
      apply ok_response_inj in E. now rewrite <- E.
    + apply Rltb_false in G. rewrite (Hge G) in H.
      assert (E : ok_response
                    (classical_final
                       (prediction_of (features_of v s) (s 6%nat)))
                  = ok_response d)
        by congruence.
      apply ok_response_inj in E. now rewrite <- E.
Qed.

(** The sample transaction: the classical path when every draw is 0, the
    quantum path when every draw is 1/2. *)
Lemma handler_quantumContribution_witness :
  (exists d : DetectionResult,
     run (handler sample_parse (Event "tx")) (constant_source 0)
       = Ok (ok_response d) /\
     quantumContribution d = 25) /\
  (exists d : DetectionResult,
     run (handler sample_parse (Event "tx")) (constant_source 0.5)
       = Ok (ok_response d) /\
     quantumContribution d = 75).
Proof.
  assert (Hv : json_of_TransactionData (sample_transaction "abc") <> JNull)
    by discriminate.
  split.
  - destruct (handler_settles sample_parse (Event "tx") (constant_source 0))
      as [[[M|M] _]|[_ [d [s' [Hh _]]]]]; try discriminate.
    assert (Hr : run (handler sample_parse (Event "tx")) (constant_source 0)
                 = Ok (ok_response d))
      by (unfold run; now rewrite Hh).
    destruct (handler_quantumContribution sample_parse (Event "tx")
                (constant_source 0) (ok_response d) Hr eq_refl)
      as [d' [E [_ [_ Hq]]]].
    apply ok_response_inj in E. subst d'.
    exists d. split; [exact Hr|].
    rewrite (Hq "tx"%string _ _ _ _ eq_refl eq_refl
               (screening_run _ (constant_source 0) Hv eq_refl)).
    rewrite sample_riskScore_zero. cbn [Classical.confidenceScore].
    assert (G : Rgtb 0.12 0.6 = false) by (apply Rgtb_false; lra).
    rewrite G.
    assert (L : Rltb (1 - 0.12) 0.85 = false) by (apply Rltb_false; lra).
    now rewrite L.
  - destruct (handler_settles sample_parse (Event "tx") (constant_source 0.5))
      as [[[M|M] _]|[_ [d [s' [Hh _]]]]]; try discriminate.
    assert (Hr : run (handler sample_parse (Event "tx")) (constant_source 0.5)
                 = Ok (ok_response d))
      by (unfold run; now rewrite Hh).
    destruct (handler_quantumContribution sample_parse (Event "tx")
                (constant_source 0.5) (ok_response d) Hr eq_refl)
      as [d' [E [_ [_ Hq]]]].
    apply ok_response_inj in E. subst d'.
    exists d. split; [exact Hr|].
    rewrite (Hq "tx"%string _ _ _ _ eq_refl eq_refl
               (screening_run _ (constant_source 0.5) Hv eq_refl)).
    unfold prediction_of. cbn [Classical.confidenceScore].
    rewrite sample_riskScore.
    assert (G : Rgtb (0.12 + 0.3 * 0.5) 0.6 = false)
      by (apply Rgtb_false; lra).
    rewrite G.
    assert (L : Rltb (1 - (0.12 + 0.3 * 0.5)) 0.85 = true)
      by (apply Rltb_true; lra).
    now rewrite L.
Defined.

(** ** Rounding at the upper bounds *)

(** In binary64 the largest draws are below 1 and yet round the quantum
    contribution to 85 and the confidence of a low-value fraud to 100; the
    processing time stays below 250. *)
Example binary64_largest_draws :
  Binary64.is_draw Binary64.largest_draw = true /\
  Binary64.is_draw Binary64.largest_draw_52 = true.
Proof. split; reflexivity. Qed.

Example binary64_quantumContribution_reaches_85 :
  Binary64.quantumContribution_is_85 Binary64.largest_draw = true /\
  Binary64.quantumContribution_is_85 Binary64.largest_draw_52 = true.
Proof. split; reflexivity. Qed.

Example binary64_confidence_reaches_100 :
  Binary64.low_fraud_confidence_is_100 Binary64.largest_draw = true /\
  Binary64.low_fraud_confidence_is_100 Binary64.largest_draw_52 = true.
Proof. split; reflexivity. Qed.

Example binary64_processingTime_below_250 :
  Binary64.processingTime_below_250 Binary64.largest_draw = true /\
  Binary64.processingTime_below_250 Binary64.largest_draw_52 = true.
Proof. split; reflexivity. Qed.

(** The confidence of a low-value transaction that is not fraudulent
    reaches 98: the first draw is 0, the second the largest. *)
Example binary64_confidence_reaches_98 :
  Binary64.confidence_below_98
    (Binary64.detectFraud Binary64.amount_NaN
       (fun n => match n with
                 | O => PrimFloat.zero
                 | _ => Binary64.largest_draw
                 end))
  = false.
Proof. reflexivity. Qed.

(** The processing times of the stages of [handler] reach 80 and 250. *)
Example binary64_stage_processingTime_reaches_bound :
  Binary64.classical_processingTime_is_80 Binary64.largest_draw = true /\
  Binary64.quantum_processingTime_is_250 Binary64.largest_draw = true.
Proof. split; reflexivity. Qed.

(** At six draws just above 0.1 the classical confidence of a low amount
    rounds to 0.85, so that the gate stays closed, where the exact value is
    below 0.85. *)
Example binary64_gate_at_the_threshold :
  Binary64.is_draw Binary64.draw_above_tenth = true /\
  Binary64.gate_opens
    (Binary64.low_amount_confidenceScore Binary64.draw_above_tenth) = false.
Proof. split; reflexivity. Qed.

(** * Further properties of the scoring code *)

(** ** The quantum stage *)

Lemma calculateQuantumRiskScore_terms (f : Feature.t) :
  calculateQuantumRiskScore f =
    Rmin (Rmax (baseScore f + nonLinearComponent f) 0) 1.
Proof. reflexivity. Qed.

Lemma calculateQuantumRiskScore_clamped (f : Feature.t) :
  0 <= calculateQuantumRiskScore f <= 1.
Proof.
  rewrite calculateQuantumRiskScore_terms.
  set (x := baseScore f + nonLinearComponent f).
  unfold Rmin, Rmax.
  destruct (Rle_dec x 0); destruct (Rle_dec _ 1); lra.
Qed.

Lemma runQuantumAnnealingSolver_closed (f : Feature.t) (s : RandomSource) :
  runQuantumAnnealingSolver f s = (Ok (quantum_of f (s 0%nat)), advance 1 s).
Proof. reflexivity. Qed.

Lemma sin_term_bound (c m : R) :
  0 <= c < 0.5 -> 0 <= m < 0.5 -> 0 <= sin (c * m * PI) <= 1.
Proof.
  intros Hc Hm. pose proof PI_RGT_0 as Hpi.
  assert (Hcm : 0 <= c * m <= 0.25) by nra.
  split.
  - apply sin_ge_0; nra.
  - apply SIN_bound.
Qed.

Lemma cos_term_bound (l t : R) :
  0 <= l < 0.5 -> 0 <= t < 0.5 -> 0 <= cos (l * t * PI) <= 1.
Proof.
  intros Hl Ht. pose proof PI_RGT_0 as Hpi.
  assert (Hlt : 0 <= l * t <= 0.25) by nra.
  split.
  - apply cos_ge_0; nra.
  - apply COS_bound.
Qed.

Lemma nonLinearComponent_bound (f : Feature.t) :
  sub_scores_bounded f -> 0 <= nonLinearComponent f <= 0.2.
Proof.
  intros (Hc & Hm & Hl & _ & _ & Ht). unfold nonLinearComponent.
  pose proof (sin_term_bound _ _ Hc Hm).
  pose proof (cos_term_bound _ _ Hl Ht).
  lra.
Qed.

Lemma baseScore_bound (f : Feature.t) :
  sub_scores_bounded f ->
  (if js_gt (Feature.amount f) (Fin 1000) then 0.24 else 0.12)
    <= baseScore f <
  (if js_gt (Feature.amount f) (Fin 1000) then 0.59 else 0.47).
Proof.
  unfold sub_scores_bounded, baseScore. intros H.
  destruct (js_gt (Feature.amount f) (Fin 1000)); lra.
Qed.

(** On a feature vector with sub-scores in [0,0.5), as
    [preprocessTransaction] makes them, the clamp of
    [calculateQuantumRiskScore] never takes effect: the score is the sum of
    the base score and the non-linear component, and lies in [0.12,0.79). *)
Theorem quantum_clamp_inactive (f : Feature.t) :
  sub_scores_bounded f ->
  calculateQuantumRiskScore f = baseScore f + nonLinearComponent f /\
  0.12 <= calculateQuantumRiskScore f < 0.79.
Proof.
  intros Hf. pose proof (nonLinearComponent_bound f Hf) as Hn.
  pose proof (baseScore_bound f Hf) as Hb.
  assert (Hx : 0.12 <= baseScore f + nonLinearComponent f < 0.79)
    by (destruct (js_gt (Feature.amount f) (Fin 1000)); lra).
  assert (E : calculateQuantumRiskScore f = baseScore f + nonLinearComponent f).
  { rewrite calculateQuantumRiskScore_terms.
    unfold Rmin, Rmax.
    destruct (Rle_dec (baseScore f + nonLinearComponent f) 0);
      destruct (Rle_dec _ 1); lra. }
  split; [exact E | now rewrite E].
Qed.

Lemma quantum_clamp_inactive_witness :
  0.12 <= calculateQuantumRiskScore
            (features_of (json_of_TransactionData (sample_transaction "abc"))
                         (constant_source 0.25)) < 0.79.
Proof.
  apply (quantum_clamp_inactive
           (features_of (json_of_TransactionData (sample_transaction "abc"))
                        (constant_source 0.25))).
  apply features_of_bounded. apply unit_draws_constant. lra.
Defined.

Lemma quantum_score_range (f : Feature.t) :
  sub_scores_bounded f -> 0.12 <= calculateQuantumRiskScore f < 0.79.
Proof.
  intros Hf. pose proof (nonLinearComponent_bound f Hf) as Hn.
  pose proof (baseScore_bound f Hf) as Hb.
  rewrite calculateQuantumRiskScore_terms. unfold Rmin, Rmax.
  destruct (js_gt (Feature.amount f) (Fin 1000));
    destruct (Rle_dec (baseScore f + nonLinearComponent f) 0);
    destruct (Rle_dec _ 1); lra.
Qed.

(** On a feature vector with sub-scores in [0,0.5), as
    [preprocessTransaction] makes them, and a draw in [0,1), the quantum
    stage reports fraud exactly when its risk score exceeds 0.5, with a
    confidence between 50 and 88, the score in percent and below 79 for
    fraud and its complement in percent otherwise, and a processing time
    between 150 and 250. *)
Theorem quantum_confidence_range (f : Feature.t) (s : RandomSource) :
  sub_scores_bounded f ->
  unit_draws s ->
  exists q : Quantum.t,
    run (runQuantumAnnealingSolver f) s = Ok q /\
    50 <= Quantum.confidence q <= 88 /\
    150 <= Quantum.processingTime q <= 250 /\
    (Quantum.isFraudulent q = true <-> calculateQuantumRiskScore f > 0.5) /\
    (Quantum.isFraudulent q = true ->
     Quantum.confidence q = calculateQuantumRiskScore f * 100 /\
     Quantum.confidence q < 79) /\
    (Quantum.isFraudulent q = false ->
     Quantum.confidence q = (1 - calculateQuantumRiskScore f) * 100).
Proof.
  intros Hf Hs. exists (quantum_of f (s 0%nat)).
  split; [unfold run; now rewrite runQuantumAnnealingSolver_closed|].
  pose proof (quantum_score_range f Hf) as Hc. pose proof (Hs 0%nat) as H0.
  cbn [quantum_of Quantum.confidence Quantum.isFraudulent
       Quantum.processingTime].
  destruct (Rgtb (calculateQuantumRiskScore f) 0.5) eqn:G.
  - apply Rgtb_true in G. repeat split; intros; try easy; lra.
  - apply Rgtb_false in G. repeat split; intros; try easy; lra.
Qed.

Lemma quantum_confidence_range_witness :
  exists q : Quantum.t,
    run (runQuantumAnnealingSolver
           (features_of (json_of_TransactionData (sample_transaction "abc"))
                        (constant_source 0.5)))
        (constant_source 0.5) = Ok q /\
    50 <= Quantum.confidence q <= 88 /\
    150 <= Quantum.processingTime q <= 250.
Proof.
  assert (Hs : unit_draws (constant_source 0.5))
    by (apply unit_draws_constant; lra).
  destruct (quantum_confidence_range
              (features_of (json_of_TransactionData (sample_transaction "abc"))
                           (constant_source 0.5))
              (constant_source 0.5) (features_of_bounded _ _ Hs) Hs)
    as (q & Hq & Hc & Hp & _).
  exists q. now split.
Defined.

(** ** Which path [handler] takes *)

Lemma riskScore_split (f : Feature.t) :
  riskScore f =
    0.4 * (if js_gt (Feature.amount f) (Fin 1000) then 0.7 else 0.3)
    + sub_score_sum f.
Proof. unfold riskScore, sub_score_sum. ring. Qed.

Lemma sub_score_sum_bound (f : Feature.t) :
  sub_scores_bounded f -> 0 <= sub_score_sum f < 0.3.
Proof. unfold sub_scores_bounded, sub_score_sum. intros H. lra. Qed.

(** The classical confidence on bounded sub-scores is [1 - riskScore]. *)
Lemma classical_confidence_closed (f : Feature.t) (x : R) :
  sub_scores_bounded f ->
  Classical.confidenceScore (prediction_of f x) = 1 - riskScore f /\
  Classical.isFraudulent (prediction_of f x) = false.
Proof.
  intros Hf. pose proof (riskScore_bound f Hf) as Hr.
  assert (G : Rgtb (riskScore f) 0.6 = false) by (apply Rgtb_false; lra).
  cbn [prediction_of Classical.confidenceScore Classical.isFraudulent].
  now rewrite G.
Qed.

Lemma above_1000_not_null (v : json) : above_1000 v = true -> v <> JNull.
Proof. intros H ->. discriminate. Qed.

(** A body whose amount is above 1000 and converts to a text always reaches
    the quantum stage: the classical confidence is then at most 0.72, below
    the gate of 0.85, whatever the draws, and the response carries the
    quantum result. *)
Theorem high_amount_takes_quantum_path
    (JSON_parse : string -> option json) (body : string) (v : json)
    (s : RandomSource) :
  JSON_parse body = Some v ->
  above_1000 v = true ->
  amount_throws v = false ->
  unit_draws s ->
  Classical.confidenceScore
    (prediction_of (features_of v s) (s 6%nat)) <= 0.72 /\
  handler JSON_parse (Event body) s =
    (Ok (ok_response
           (quantum_final (quantum_of (features_of v s) (s 7%nat)))),
     advance 8 s).
Proof.
  intros Hp Ha Ht Hs. pose proof (above_1000_not_null v Ha) as Hv.
  pose proof (features_of_bounded v s Hs) as Hf.
  destruct (classical_confidence_closed (features_of v s) (s 6%nat) Hf)
    as [Hc _].
  pose proof (sub_score_sum_bound _ Hf) as Hsum.
  assert (Hr : 0.28 <= riskScore (features_of v s)).
  { rewrite riskScore_split. unfold above_1000 in Ha.
    cbn [features_of Feature.amount]. rewrite Ha. lra. }
  split; [lra|].
  destruct (handler_on_value JSON_parse body v s Hp Hv Ht) as [Hq _].
  destruct Hq as [q [Hrun Hh]]; [lra|].
  rewrite runQuantumAnnealingSolver_closed in Hrun.
  injection Hrun as <-. exact Hh.
Qed.

Lemma high_amount_takes_quantum_path_witness :
  exists d : DetectionResult,
    handler (fun _ => Some (json_of_TransactionData (sample_transaction "6000")))
            (Event "body") (constant_source 0)
    = (Ok (ok_response d), advance 8 (constant_source 0)) /\
    quantumContribution d = 75.
Proof.
  destruct (high_amount_takes_quantum_path
              (fun _ => Some (json_of_TransactionData
                                (sample_transaction "6000")))
              "body"%string
              (json_of_TransactionData (sample_transaction "6000"))
              (constant_source 0) eq_refl) as [_ H].
  - unfold above_1000.
    change (Number_parseFloat_value
              (property (json_of_TransactionData (sample_transaction "6000"))
                        "amount")) with (parseFloat "6000").
    rewrite parseFloat_6000. cbn [js_gt]. apply Rgtb_true. lra.
  - reflexivity.
  - apply unit_draws_constant. lra.
  - eexists. split; [exact H | reflexivity].
Defined.

(** On a body that parses to a value other than [null] whose amount
    converts to a text, and on draws in [0,1): when the amount is not above
    1000 and the weighted sum of the six sub-scores is at most 0.029,
    [handler] returns the classical result, with a confidence in [85,88], a
    processing time in [50,80] and no fraud; when the amount is above 1000
    or the sum is at least 0.031, it returns the quantum result.  Between
    the two, at a classical confidence of about 0.85, the path depends on
    how the sum rounds. *)
Theorem classical_path_condition
    (JSON_parse : string -> option json) (body : string) (v : json)
    (s : RandomSource) :
  JSON_parse body = Some v ->
  v <> JNull ->
  amount_throws v = false ->
  unit_draws s ->
  let f := features_of v s in
  let p := prediction_of f (s 6%nat) in
  (above_1000 v = false -> sub_score_sum f <= 0.029 ->
   handler JSON_parse (Event body) s =
     (Ok (ok_response (classical_final p)), advance 7 s) /\
   85 <= confidence (classical_final p) <= 88 /\
   50 <= processingTime (classical_final p) <= 80 /\
   isFraudulent (classical_final p) = false) /\
  (above_1000 v = true \/ 0.031 <= sub_score_sum f ->
   handler JSON_parse (Event body) s =
     (Ok (ok_response (quantum_final (quantum_of f (s 7%nat)))),
      advance 8 s)).
Proof.
  intros Hp Hv Ht Hs f p.
  pose proof (features_of_bounded v s Hs) as Hf. fold f in Hf.
  destruct (classical_confidence_closed f (s 6%nat) Hf) as [Hc Hn].
  fold p in Hc, Hn.
  pose proof (sub_score_sum_bound f Hf) as Hsum.
  pose proof (riskScore_split f) as Hr.
  assert (Ha : js_gt (Feature.amount f) (Fin 1000) = above_1000 v)
    by reflexivity.
  rewrite Ha in Hr.
  destruct (handler_on_value JSON_parse body v s Hp Hv Ht) as [Hq Hcl].
  fold f in Hq, Hcl. fold p in Hq, Hcl.
  split.
  - intros Hlow Hle. rewrite Hlow in Hr.
    assert (H : 0.85 <= Classical.confidenceScore p) by lra.
    split; [exact (Hcl H)|].
    cbn [classical_final confidence processingTime isFraudulent].
    split; [lra|]. split; [|exact Hn].
    unfold p. cbn [prediction_of Classical.processingTime].
    pose proof (Hs 6%nat). lra.
  - intros H.
    assert (L : Classical.confidenceScore p < 0.85)
      by (destruct H as [H|H]; [rewrite H in Hr | destruct (above_1000 v)];
          lra).
    destruct (Hq L) as [q [Hrun Hh]].
    rewrite runQuantumAnnealingSolver_closed in Hrun.
    injection Hrun as <-. exact Hh.
Qed.

Lemma classical_path_condition_witness :
  handler sample_parse (Event "tx") (constant_source 0) =
    (Ok (ok_response
           (classical_final
              (prediction_of
                 (features_of
                    (json_of_TransactionData (sample_transaction "abc"))
                    (constant_source 0))
                 (constant_source 0 6%nat)))),
     advance 7 (constant_source 0)).
Proof.
  assert (Hv : json_of_TransactionData (sample_transaction "abc") <> JNull)
    by discriminate.
  assert (Hs : unit_draws (constant_source 0))
    by (apply unit_draws_constant; lra).
  destruct (classical_path_condition sample_parse "tx"%string
              (json_of_TransactionData (sample_transaction "abc"))
              (constant_source 0) eq_refl Hv eq_refl Hs) as [Hcl _].
  apply Hcl; [reflexivity|].
  unfold sub_score_sum, features_of, constant_source.
  cbn [Feature.customerRiskScore Feature.merchantRiskScore
       Feature.locationRiskScore Feature.deviceRiskScore
       Feature.ipRiskScore Feature.timeOfDayRiskScore].
  lra.
Defined.

(** ** The successful responses of [handler] *)

(** The two results [handler] can return on a parsed value, in closed form. *)
Lemma handler_result_cases (JSON_parse : string -> option json)
    (body : string) (v : json) (s : RandomSource) :
  JSON_parse body = Some v ->
  v <> JNull ->
  amount_throws v = false ->
  let f := features_of v s in
  let p := prediction_of f (s 6%nat) in
  (Classical.confidenceScore p < 0.85 /\
   handler JSON_parse (Event body) s =
     (Ok (ok_response (quantum_final (quantum_of f (s 7%nat)))),
      advance 8 s)) \/
  (0.85 <= Classical.confidenceScore p /\
   handler JSON_parse (Event body) s =
     (Ok (ok_response (classical_final p)), advance 7 s)).
Proof.
  intros Hp Hv Ha f p.
  destruct (handler_on_value JSON_parse body v s Hp Hv Ha) as [Hq Hc].
  destruct (Rlt_dec (Classical.confidenceScore p) 0.85) as [L|L].
  - left. split; [exact L|].
    destruct (Hq L) as [q [Hrun Hh]].
    rewrite runQuantumAnnealingSolver_closed in Hrun.
    injection Hrun as <-. exact Hh.
  - right. assert (L' : 0.85 <= Classical.confidenceScore p) by lra.
    split; [exact L' | exact (Hc L')].
Qed.

Lemma quantum_final_range (f : Feature.t) (x : R) :
  sub_scores_bounded f ->
  0 <= x < 1 ->
  let d := quantum_final (quantum_of f x) in
  50 <= confidence d <= 88 /\
  150 <= processingTime d < 250 /\
  (isFraudulent d = true -> confidence d < 79).
Proof.
  intros Hf Hx d.
  pose proof (quantum_score_range f Hf) as Hs.
  unfold d.
  cbn [quantum_final quantum_of confidence processingTime isFraudulent
       Quantum.confidence Quantum.processingTime Quantum.isFraudulent].
  destruct (Rgtb (calculateQuantumRiskScore f) 0.5) eqn:G.
  - apply Rgtb_true in G. repeat split; intros; lra.
  - apply Rgtb_false in G. repeat split; intros; try discriminate; lra.
Qed.

(** Every successful response of [handler], on draws in [0,1), carries a
    confidence between 50 and 88 and a processing time between 50 and 250;
    a response that reports fraud comes from the quantum stage and has a
    confidence below 79. *)
Theorem handler_response_ranges (JSON_parse : string -> option json)
    (ev : event) (s : RandomSource) (r : response) :
  unit_draws s ->
  run (handler JSON_parse ev) s = Ok r ->
  statusCode r = 200%Z ->
  exists d : DetectionResult,
    r = ok_response d /\
    50 <= confidence d <= 88 /\
    50 <= processingTime d <= 250 /\
    (isFraudulent d = true ->
     quantumContribution d = 75 /\ confidence d < 79).
Proof.
  intros Hs Hr H200. unfold run in Hr.
  destruct (handler_settles JSON_parse ev s) as [[_ H]|[M _]].
  { rewrite H in Hr. injection Hr as <-. discriminate. }
  destruct (not_throws_inv JSON_parse ev M)
    as (body & v & -> & Hp & Hv & Ha).
  pose proof (features_of_bounded v s Hs) as Hf.
  destruct (handler_result_cases JSON_parse body v s Hp Hv Ha)
    as [[_ H]|[Hc H]]; rewrite H in Hr; injection Hr as <-.
  - eexists. split; [reflexivity|].
    destruct (quantum_final_range (features_of v s) (s 7%nat) Hf (Hs 7%nat))
      as (Hconf & Hpt & Hfr).
    split; [exact Hconf|]. split; [lra|].
    intros Hfraud. split; [reflexivity | exact (Hfr Hfraud)].
  - eexists. split; [reflexivity|].
    destruct (classical_confidence_closed (features_of v s) (s 6%nat) Hf)
      as [Hcc Hn].
    pose proof (riskScore_bound _ Hf) as Hrb.
    cbn [classical_final confidence processingTime isFraudulent
         quantumContribution].
    split; [rewrite Hcc in *; lra|].
    split.
    + cbn [prediction_of Classical.processingTime]. pose proof (Hs 6%nat). lra.
    + rewrite Hn. discriminate.
Qed.

Lemma handler_response_ranges_witness :
  exists d : DetectionResult,
    run (handler sample_parse (Event "tx")) (constant_source 0.5)
      = Ok (ok_response d) /\
    50 <= confidence d <= 88 /\
    50 <= processingTime d <= 250.
Proof.
  assert (Hs : unit_draws (constant_source 0.5))
    by (apply unit_draws_constant; lra).
  destruct (handler_settles sample_parse (Event "tx") (constant_source 0.5))
    as [[[M|M] _]|[_ [d [s' [Hh _]]]]]; try discriminate.
  assert (Hr : run (handler sample_parse (Event "tx")) (constant_source 0.5)
               = Ok (ok_response d))
    by (unfold run; now rewrite Hh).
  destruct (handler_response_ranges sample_parse (Event "tx")
              (constant_source 0.5) (ok_response d) Hs Hr eq_refl)
    as (d' & E & Hc & Hp & _).
  apply ok_response_inj in E. subst d'.
  exists d. split; [exact Hr|]. split; assumption.
Defined.

(** ** What the results depend on *)

Lemma riskScore_amount_side (v v' : json) (s : RandomSource) :
  above_1000 v = above_1000 v' ->
  riskScore (features_of v s) = riskScore (features_of v' s) /\
  calculateQuantumRiskScore (features_of v s)
    = calculateQuantumRiskScore (features_of v' s).
Proof.
  unfold above_1000. intros H.
  unfold riskScore, calculateQuantumRiskScore.
  cbn [features_of Feature.amount Feature.customerRiskScore
       Feature.merchantRiskScore Feature.locationRiskScore
       Feature.deviceRiskScore Feature.ipRiskScore
       Feature.timeOfDayRiskScore].
  now rewrite H.
Qed.

(** The response of [handler] depends on the transaction only through
    whether its amount is above 1000: two bodies that parse to values other
    than [null], with amounts that convert to a text and are on the same
    side of 1000, get the same response on the same draws, whatever their
    identifiers, location and timestamp are. *)
Theorem handler_depends_on_amount_side
    (JSON_parse : string -> option json) (body body' : string)
    (v v' : json) (s : RandomSource) :
  JSON_parse body = Some v ->
  JSON_parse body' = Some v' ->
  v <> JNull ->
  v' <> JNull ->
  amount_throws v = false ->
  amount_throws v' = false ->
  above_1000 v = above_1000 v' ->
  handler JSON_parse (Event body) s = handler JSON_parse (Event body') s.
Proof.
  intros Hp Hp' Hv Hv' Ht Ht' Ha.
  destruct (riskScore_amount_side v v' s Ha) as [Hr Hq].
  assert (Ep : prediction_of (features_of v s) (s 6%nat)
               = prediction_of (features_of v' s) (s 6%nat))
    by (unfold prediction_of; now rewrite Hr).
  assert (Eq : quantum_of (features_of v s) (s 7%nat)
               = quantum_of (features_of v' s) (s 7%nat))
    by (unfold quantum_of; now rewrite Hq).
  destruct (handler_result_cases JSON_parse body v s Hp Hv Ht)
    as [[Hc H]|[Hc H]];
    destruct (handler_result_cases JSON_parse body' v' s Hp' Hv' Ht')
      as [[Hc' H']|[Hc' H']];
    rewrite H, H'; rewrite <- ?Ep in *; rewrite <- ?Eq in *;
    try reflexivity; lra.
Qed.

Lemma handler_depends_on_amount_side_witness :
  handler two_body_parse (Event "a") (constant_source 0.5)
  = handler two_body_parse (Event "b") (constant_source 0.5).
Proof.
  apply (handler_depends_on_amount_side two_body_parse "a" "b"
           (json_of_TransactionData (sample_transaction "abc"))
           (json_of_TransactionData (other_transaction "50"))
           (constant_source 0.5)); try reflexivity; try discriminate.
  unfold above_1000.
  change (Number_parseFloat_value
            (property (json_of_TransactionData (sample_transaction "abc"))
                      "amount")) with NaN.
  change (Number_parseFloat_value
            (property (json_of_TransactionData (other_transaction "50"))
                      "amount")) with (parseFloat "50").
  rewrite parseFloat_50. cbn [js_gt]. symmetry. apply Rgtb_false. lra.
Defined.

(** ** [detectFraud] on every amount *)

(** The result of [detectFraud] depends on the transaction only through the
    tier of its amount: two transactions whose amounts compare alike with
    5000 and with 1000 get the same result on the same draws. *)
Theorem detectFraud_depends_on_tier
    (tx tx' : TransactionData) (s : RandomSource) :
  js_gt (parseFloat (amount tx)) (Fin 5000)
    = js_gt (parseFloat (amount tx')) (Fin 5000) ->
  js_gt (parseFloat (amount tx)) (Fin 1000)
    = js_gt (parseFloat (amount tx')) (Fin 1000) ->
  detectFraud tx s = detectFraud tx' s.
Proof.
  intros E5 E1.
  destruct (js_gt (parseFloat (amount tx)) (Fin 5000)) eqn:H5;
    [rewrite (detectFraud_high tx s H5);
     now rewrite (detectFraud_high tx' s (eq_sym E5))|].
  destruct (js_gt (parseFloat (amount tx)) (Fin 1000)) eqn:H1.
  - rewrite (detectFraud_medium tx s H5 H1).
    now rewrite (detectFraud_medium tx' s (eq_sym E5) (eq_sym E1)).
  - rewrite (detectFraud_low tx s H5 H1).
    now rewrite (detectFraud_low tx' s (eq_sym E5) (eq_sym E1)).
Qed.

(** An amount that does not parse is scored as the amount 50 is. *)
Lemma detectFraud_depends_on_tier_witness :
  detectFraud (sample_transaction "abc") (constant_source 0.5)
  = detectFraud (sample_transaction "50") (constant_source 0.5).
Proof.
  apply (detectFraud_depends_on_tier (sample_transaction "abc")
           (sample_transaction "50") (constant_source 0.5)).
  - cbn [sample_transaction amount].
    rewrite parseFloat_abc, parseFloat_50. cbn [js_gt].
    symmetry. apply Rgtb_false. lra.
  - cbn [sample_transaction amount].
    rewrite parseFloat_abc, parseFloat_50. cbn [js_gt].
    symmetry. apply Rgtb_false. lra.
Defined.

Lemma fraud_verdict_threshold (tx : TransactionData) (s : RandomSource) :
  fraud_verdict tx s =
    Rgtb (s 0%nat)
         (if js_gt (parseFloat (amount tx)) (Fin 5000) then 0.7
          else if js_gt (parseFloat (amount tx)) (Fin 1000) then 0.9
          else 0.95).
Proof.
  unfold fraud_verdict, run.
  destruct (js_gt (parseFloat (amount tx)) (Fin 5000)) eqn:H5;
    [now rewrite (detectFraud_high tx s H5)|].
  destruct (js_gt (parseFloat (amount tx)) (Fin 1000)) eqn:H1.
  - now rewrite (detectFraud_medium tx s H5 H1).
  - now rewrite (detectFraud_low tx s H5 H1).
Qed.

(** On the same draws the verdict of [detectFraud] is monotone in the
    amount: when a transaction is reported fraudulent, so is every
    transaction of a larger amount. *)
Theorem detectFraud_verdict_monotone
    (tx tx' : TransactionData) (a a' : R) (s : RandomSource) :
  parseFloat (amount tx) = Fin a ->
  parseFloat (amount tx') = Fin a' ->
  a <= a' ->
  fraud_verdict tx s = true ->
  fraud_verdict tx' s = true.
Proof.
  intros Ha Ha' Hle. rewrite !fraud_verdict_threshold, Ha, Ha'.
  cbn [js_gt]. intros H. apply Rgtb_true in H. apply Rgtb_true.
  destruct (Rgtb a 5000) eqn:G5; destruct (Rgtb a' 5000) eqn:G5';
    destruct (Rgtb a 1000) eqn:G1; destruct (Rgtb a' 1000) eqn:G1';
    repeat match goal with
           | H : Rgtb _ _ = true |- _ => apply Rgtb_true in H
           | H : Rgtb _ _ = false |- _ => apply Rgtb_false in H
           end; lra.
Qed.

Lemma detectFraud_verdict_monotone_witness :
  fraud_verdict (sample_transaction "6000") (constant_source 0.96) = true.
Proof.
  apply (detectFraud_verdict_monotone (sample_transaction "50")
           (sample_transaction "6000") 50 6000 (constant_source 0.96)
           parseFloat_50 parseFloat_6000).
  - lra.
  - rewrite fraud_verdict_threshold.
    cbn [sample_transaction amount]. rewrite parseFloat_50. cbn [js_gt].
    assert (G5 : Rgtb 50 5000 = false) by (apply Rgtb_false; lra).
    assert (G1 : Rgtb 50 1000 = false) by (apply Rgtb_false; lra).
    rewrite G5, G1. apply Rgtb_true. unfold constant_source. lra.
Defined.

(** Whatever the amount is, a number of any sign, an infinity or NaN, the
    confidence of [detectFraud] on draws in [0,1) lies between 75 and 100;
    it is at least 85 when fraud is reported and at most 98 when it is
    not. *)
Theorem detectFraud_confidence_every_amount
    (tx : TransactionData) (s : RandomSource) :
  unit_draws s ->
  exists d : DetectionResult,
    run (detectFraud tx) s = Ok d /\
    75 <= confidence d <= 100 /\
    (isFraudulent d = true -> 85 <= confidence d) /\
    (isFraudulent d = false -> confidence d <= 98).
Proof.
  intros Hs. unfold run.
  destruct (js_gt (parseFloat (amount tx)) (Fin 5000)) eqn:H5;
    [rewrite (detectFraud_high tx s H5)
    |destruct (js_gt (parseFloat (amount tx)) (Fin 1000)) eqn:H1;
       [rewrite (detectFraud_medium tx s H5 H1)
       |rewrite (detectFraud_low tx s H5 H1)]];
    eexists; (split; [reflexivity|]); draw_bounds Hs.
Qed.

Lemma detectFraud_confidence_every_amount_witness :
  exists d : DetectionResult,
    run (detectFraud (sample_transaction "-5")) (constant_source 0.5) = Ok d /\
    75 <= confidence d <= 100 /\
    (isFraudulent d = true -> 85 <= confidence d) /\
    (isFraudulent d = false -> confidence d <= 98).
Proof.
  apply (detectFraud_confidence_every_amount (sample_transaction "-5")
           (constant_source 0.5)).
  apply unit_draws_constant. lra.
Defined.

(** Two calls of [detectFraud] in a row read disjoint draws: the second
    call behaves as a first call on the source four draws further, and the
    pair leaves the source eight draws further. *)
Theorem detectFraud_twice (tx tx' : TransactionData) (s : RandomSource) :
  exists d d' : DetectionResult,
    run (detectFraud tx) s = Ok d /\
    run (detectFraud tx') (advance 4 s) = Ok d' /\
    (first <- detectFraud tx ;; second <- detectFraud tx' ;;
     ret (first, second)) s
    = (Ok (d, d'), advance 8 s).
Proof.
  destruct (detectFraud_settles tx s) as [d [Hd _]].
  destruct (detectFraud_settles tx' (advance 4 s)) as [d' [Hd' _]].
  exists d, d'. unfold run, bind. rewrite Hd, Hd'. repeat split.
Qed.

(** ** The dashboard *)

Import Dashboard.

Lemma set_field_input (i : input) (value : string) (tx : TransactionData) :
  deviceId (set_field (name_of i) value tx) = deviceId tx /\
  ipAddress (set_field (name_of i) value tx) = ipAddress tx /\
  timestamp (set_field (name_of i) value tx) = timestamp tx.
Proof. destruct i, tx; repeat split. Qed.

Lemma detectFraud_in_contract (tx : TransactionData) (s : RandomSource) :
  unit_draws s ->
  exists d : DetectionResult,
    detectFraud tx s = (Ok d, advance 4 s) /\ in_contract d.
Proof.
  intros Hs. unfold in_contract.
  destruct (js_gt (parseFloat (amount tx)) (Fin 5000)) eqn:H5;
    [rewrite (detectFraud_high tx s H5)
    |destruct (js_gt (parseFloat (amount tx)) (Fin 1000)) eqn:H1;
       [rewrite (detectFraud_medium tx s H5 H1)
       |rewrite (detectFraud_low tx s H5 H1)]];
    eexists; (split; [reflexivity|]); draw_bounds Hs.
Qed.

Lemma unit_draws_advance (k : nat) (s : RandomSource) :
  unit_draws s -> unit_draws (advance k s).
Proof. intros Hs n. apply Hs. Qed.

Lemma handleDetect_settle_closed (tx : TransactionData) (st : state)
    (s : RandomSource) :
  exists d : DetectionResult,
    detectFraud tx s = (Ok d, advance 4 s) /\
    handleDetect_settle tx st s =
      ({| transactionData := transactionData st;
          result := Some d;
          isProcessing := false;
          in_flight := None |}, advance 4 s).
Proof.
  destruct (detectFraud_settles tx s) as [d [Hd _]].
  exists d. split; [exact Hd|]. unfold handleDetect_settle. now rewrite Hd.
Qed.

Lemma step_invariant (now : string) (st : state) (s : RandomSource)
    (e : ui_event) :
  reachable_invariant now st ->
  reachable_invariant now (fst (step (st, s) e)).
Proof.
  intros (Hp & Hd & Hi & Ht). destruct e as [i value| |]; cbn [step].
  - destruct (set_field_input i value (transactionData st)) as (Ed & Ei & Et).
    unfold reachable_invariant.
    cbn [fst handleInputChange transactionData isProcessing in_flight].
    rewrite Ed, Ei, Et. now split; [|split; [|split]].
  - destruct (isProcessing st) eqn:P; cbn [fst].
    + unfold reachable_invariant. rewrite P. now split; [|split; [|split]].
    + unfold reachable_invariant.
      cbn [handleDetect_start transactionData isProcessing in_flight].
      split; [|now split; [|split]].
      split; intros; [discriminate | reflexivity].
  - destruct (in_flight st) as [tx|] eqn:F; cbn [fst].
    + destruct (handleDetect_settle_closed tx st s) as [d [_ ->]].
      unfold reachable_invariant.
      cbn [fst transactionData isProcessing in_flight].
      split; [|now split; [|split]].
      split; intros; [discriminate | congruence].
    + unfold reachable_invariant. rewrite F. now split; [|split; [|split]].
Qed.

(** In every state the component reaches from its initial state, it is
    processing exactly when a call of [handleDetect] is in flight, so the
    spinner is shown and the button disabled for the time of one analysis
    and no longer, and the device id, the IP address and the timestamp,
    which have no input, are those of the initial state. *)
Theorem dashboard_invariant (now : string) (es : list ui_event)
    (s : RandomSource) :
  let st := fst (run_events es (initial_state now, s)) in
  (isProcessing st = true <-> in_flight st <> None) /\
  (view st = Spinner <-> in_flight st <> None) /\
  deviceId (transactionData st) = "DEV-5678"%string /\
  ipAddress (transactionData st) = "192.168.1.1"%string /\
  timestamp (transactionData st) = now.
Proof.
  assert (G : forall es c, reachable_invariant now (fst c) ->
                           reachable_invariant now (fst (run_events es c))).
  { clear es s. induction es as [|e es IH]; intros [st s] H; [exact H|].
    cbn [run_events fold_left]. apply (IH (step (st, s) e)).
    now apply step_invariant. }
  assert (H0 : reachable_invariant now (fst (initial_state now, s))).
  { unfold reachable_invariant. cbn.
    split; [|now split; [|split]].
    split; intros; [discriminate | congruence]. }
  destruct (G es _ H0) as (Hp & Hd & Hi & Ht).
  cbn zeta. split; [exact Hp|]. split; [|now split; [|split]].
  rewrite <- Hp. unfold view.
  destruct (isProcessing _); [easy|].
  destruct (result _); split; intros; discriminate.
Qed.

Lemma step_keeps_result (c : state * RandomSource) (e : ui_event) :
  result (fst c) <> None -> result (fst (step c e)) <> None.
Proof.
  destruct c as [st s]. cbn [fst]. intros H.
  destruct e as [i value| |]; cbn [step].
  - exact H.
  - now destruct (isProcessing st).
  - destruct (in_flight st) as [tx|]; [|exact H].
    destruct (handleDetect_settle_closed tx st s) as [d [_ ->]]. discriminate.
Qed.

(** A result, once shown, is never cleared: from a state that holds a
    result, every series of events leads to a state that holds one, and the
    placeholder text is not shown again. *)
Theorem result_is_never_cleared (st : state) (s : RandomSource)
    (es : list ui_event) :
  result st <> None ->
  result (fst (run_events es (st, s))) <> None /\
  view (fst (run_events es (st, s))) <> Placeholder.
Proof.
  intros H.
  assert (G : forall es c, result (fst c) <> None ->
                           result (fst (run_events es c)) <> None).
  { clear. induction es as [|e es IH]; intros c H; [exact H|].
    cbn [run_events fold_left]. apply (IH (step c e)).
    now apply step_keeps_result. }
  pose proof (G es (st, s) H) as Hr. split; [exact Hr|].
  unfold view.
  destruct (isProcessing (fst (run_events es (st, s)))); [discriminate|].
  destruct (result (fst (run_events es (st, s))));
    [discriminate | contradiction].
Qed.

Lemma result_is_never_cleared_witness :
  view (fst (run_events [Click; Settle; Change AmountInput "7"; Click]
               (initial_state "now", constant_source 0.5)))
  <> Placeholder.
Proof.
  change (run_events [Click; Settle; Change AmountInput "7"; Click]
            (initial_state "now", constant_source 0.5))
    with (run_events [Change AmountInput "7"; Click]
            (run_events [Click; Settle]
               (initial_state "now", constant_source 0.5))).
  destruct (run_events [Click; Settle]
              (initial_state "now", constant_source 0.5)) as [st s] eqn:E.
  apply (result_is_never_cleared st s [Change AmountInput "7"; Click]).
  assert (Est : st = fst (run_events [Click; Settle]
                            (initial_state "now", constant_source 0.5)))
    by now rewrite E.
  rewrite Est. cbn [run_events fold_left step initial_state isProcessing
                    handleDetect_start transactionData in_flight result].
  destruct (handleDetect_settle_closed
              (transactionData (initial_state "now"))
              (handleDetect_start (initial_state "now"))
              (constant_source 0.5)) as [d [_ Hd]].
  cbn [initial_state transactionData handleDetect_start result] in Hd.
  rewrite Hd. discriminate.
Defined.

Lemma run_changes (edits : list (input * string)) (st : state)
    (s : RandomSource) :
  run_events (changes edits) (st, s) =
    ({| transactionData := apply_edits edits (transactionData st);
        result := result st;
        isProcessing := isProcessing st;
        in_flight := in_flight st |}, s).
Proof.
  revert st. induction edits as [|[i value] edits IH]; intros st.
  - now destruct st.
  - cbn [changes map run_events fold_left step fst snd].
    change (fold_left step (map (fun e => Change (fst e) (snd e)) edits))
      with (run_events (changes edits)).
    rewrite IH. reflexivity.
Qed.

Lemma run_events_app (es es' : list ui_event) (c : state * RandomSource) :
  run_events (es ++ es') c = run_events es' (run_events es c).
Proof. apply fold_left_app. Qed.

(** An analysis scores the transaction as it was when the button was
    clicked: from a state that is not processing, a click, any edits of the
    form while the timer runs and the end of the timer lead to the result
    of [detectFraud] on the transaction at the click, on four draws, with
    the edits kept in the form and the button enabled again. *)
Theorem analysis_scores_clicked_transaction (st : state) (s : RandomSource)
    (edits : list (input * string)) :
  isProcessing st = false ->
  exists d : DetectionResult,
    run (detectFraud (transactionData st)) s = Ok d /\
    run_events (Click :: changes edits ++ [Settle]) (st, s) =
      ({| transactionData := apply_edits edits (transactionData st);
          result := Some d;
          isProcessing := false;
          in_flight := None |}, advance 4 s) /\
    view (fst (run_events (Click :: changes edits ++ [Settle]) (st, s)))
      = Verdict d.
Proof.
  intros Hp.
  assert (E : run_events (Click :: changes edits ++ [Settle]) (st, s)
              = run_events [Settle]
                  (run_events (changes edits) (handleDetect_start st, s))).
  { change (Click :: changes edits ++ [Settle])
      with ([Click] ++ (changes edits ++ [Settle])).
    rewrite !run_events_app. cbn [run_events fold_left step].
    now rewrite Hp. }
  rewrite E, run_changes.
  cbn [run_events fold_left step handleDetect_start transactionData
       isProcessing in_flight result].
  match goal with
  | |- context [handleDetect_settle ?tx ?st' ?s'] =>
      destruct (handleDetect_settle_closed tx st' s') as [d [Hd ->]]
  end.
  exists d. split; [unfold run; now rewrite Hd|].
  split; reflexivity.
Qed.

(** The amount is changed to 9999 while the sample amount is analysed. *)
Lemma analysis_scores_clicked_transaction_witness :
  exists d : DetectionResult,
    run (detectFraud (transactionData (initial_state "now")))
        (constant_source 0.5) = Ok d /\
    view (fst (run_events
                 (Click :: changes [(AmountInput, "9999"%string)] ++ [Settle])
                 (initial_state "now", constant_source 0.5)))
      = Verdict d.
Proof.
  destruct (analysis_scores_clicked_transaction (initial_state "now")
              (constant_source 0.5) [(AmountInput, "9999"%string)] eq_refl)
    as [d [Hd [_ Hv]]].
  exists d. now split.
Defined.

Lemma step_in_contract (c : state * RandomSource) (e : ui_event) :
  unit_draws (snd c) ->
  (forall d, result (fst c) = Some d -> in_contract d) ->
  unit_draws (snd (step c e)) /\
  (forall d, result (fst (step c e)) = Some d -> in_contract d).
Proof.
  destruct c as [st s]. cbn [fst snd]. intros Hs Hr.
  destruct e as [i value| |]; cbn [step].
  - now split.
  - now destruct (isProcessing st).
  - destruct (in_flight st) as [tx|]; [|now split].
    destruct (detectFraud_in_contract tx s Hs) as [d [Hd Hc]].
    unfold handleDetect_settle. rewrite Hd. cbn [fst snd result].
    split; [now apply unit_draws_advance|].
    intros d' [= <-]. exact Hc.
Qed.

(** Whatever the user does, on draws in [0,1) every result the dashboard
    shows is within the ranges of the scoring code: a confidence between 75
    and 100 and a quantum contribution between 60 and 85, bounds included,
    which are the values of the two progress bars, and a processing time in
    [100,250). *)
Theorem shown_result_in_contract (now : string) (es : list ui_event)
    (s : RandomSource) (d : DetectionResult) :
  unit_draws s ->
  view (fst (run_events es (initial_state now, s))) = Verdict d ->
  in_contract d.
Proof.
  intros Hs Hv.
  assert (G : forall es c,
             unit_draws (snd c) ->
             (forall d, result (fst c) = Some d -> in_contract d) ->
             forall d, result (fst (run_events es c)) = Some d ->
                       in_contract d).
  { clear. induction es as [|e es IH]; intros c Hs Hr; [exact Hr|].
    cbn [run_events fold_left].
    destruct (step_in_contract c e Hs Hr) as [Hs' Hr'].
    exact (IH (step c e) Hs' Hr'). }
  apply (G es (initial_state now, s) Hs); [intros d' H; discriminate|].
  unfold view in Hv.
  destruct (isProcessing _); [discriminate|].
  destruct (result _); [now injection Hv as -> | discriminate].
Qed.

Lemma shown_result_in_contract_witness :
  exists d : DetectionResult,
    view (fst (run_events [Click; Settle]
                 (initial_state "now", constant_source 0.5))) = Verdict d /\
    in_contract d.
Proof.
  destruct (handleDetect_settle_closed
              (transactionData (initial_state "now"))
              (handleDetect_start (initial_state "now"))
              (constant_source 0.5)) as [d [_ Hd]].
  assert (Hv : view (fst (run_events [Click; Settle]
                            (initial_state "now", constant_source 0.5)))
               = Verdict d).
  { cbn [run_events fold_left step initial_state isProcessing
         handleDetect_start transactionData in_flight result].
    cbn [initial_state transactionData handleDetect_start result] in Hd.
    now rewrite Hd. }
  exists d. split; [exact Hv|].
  apply (shown_result_in_contract "now" [Click; Settle]
           (constant_source 0.5) d).
  - apply unit_draws_constant. lra.
  - exact Hv.
Defined.

(** ** Edge cases of the stages of [handler] *)

(** [preprocessTransaction] throws a TypeError before any draw on [null]
    and on a value whose amount does not convert to a text; on every other
    value it returns, after six draws, a feature vector whose amount is the
    parsed [amount] property, NaN when there is none, and whose six
    sub-scores lie in [0,0.5) on draws in [0,1). *)
Theorem preprocessTransaction_features (v : json) (s : RandomSource) :
  unit_draws s ->
  (v = JNull \/ amount_throws v = true ->
   preprocessTransaction v s = (Throw TypeError, s)) /\
  (v <> JNull -> amount_throws v = false ->
   exists f : Feature.t,
     preprocessTransaction v s = (Ok f, advance 6 s) /\
     Feature.amount f = Number_parseFloat_value (property v "amount") /\
     (property v "amount" = None -> Feature.amount f = NaN) /\
     sub_scores_bounded f).
Proof.
  intros Hs. split.
  - intros [->|Ha]; [reflexivity | now apply preprocessTransaction_throws].
  - intros Hv Ha. exists (features_of v s).
    split; [now apply preprocessTransaction_run|].
    split; [reflexivity|].
    split; [|now apply features_of_bounded].
    intros H. cbn [features_of Feature.amount]. now rewrite H.
Qed.

Lemma preprocessTransaction_features_witness :
  preprocessTransaction unconvertible_amount (constant_source 0.5)
    = (Throw TypeError, constant_source 0.5) /\
  exists f : Feature.t,
    preprocessTransaction (JNumber 50) (constant_source 0.5)
      = (Ok f, advance 6 (constant_source 0.5)) /\
    Feature.amount f = NaN /\
    sub_scores_bounded f.
Proof.
  assert (Hs : unit_draws (constant_source 0.5))
    by (apply unit_draws_constant; lra).
  split.
  - destruct (preprocessTransaction_features unconvertible_amount
                (constant_source 0.5) Hs) as [H _].
    apply H. now right.
  - destruct (preprocessTransaction_features (JNumber 50)
                (constant_source 0.5) Hs) as [_ H].
    destruct H as (f & Hf & _ & Hn & Hb); [discriminate | reflexivity |].
    exists f. split; [exact Hf|]. split; [now apply Hn | exact Hb].
Defined.

(** On sub-scores in [0,0.5) the classical model reports a confidence in
    (0.42,0.88] and a processing time between 50 and 80: its confidence
    never reaches 0.9, and it is at most 0.72 when the amount is above
    1000. *)
Theorem classical_confidence_range (f : Feature.t) (s : RandomSource) :
  sub_scores_bounded f ->
  unit_draws s ->
  exists p : Classical.t,
    run (runClassicalMLModel f) s = Ok p /\
    0.42 < Classical.confidenceScore p <= 0.88 /\
    (js_gt (Feature.amount f) (Fin 1000) = true ->
     Classical.confidenceScore p <= 0.72) /\
    50 <= Classical.processingTime p <= 80.
Proof.
  intros Hf Hs. exists (prediction_of f (s 0%nat)).
  split; [unfold run; now rewrite runClassicalMLModel_run|].
  destruct (classical_confidence_closed f (s 0%nat) Hf) as [Hc _].
  pose proof (riskScore_bound f Hf) as Hr.
  pose proof (sub_score_sum_bound f Hf) as Hsum.
  pose proof (riskScore_split f) as Hsplit.
  rewrite Hc. split; [lra|]. split.
  - intros Ha. rewrite Ha in Hsplit. lra.
  - cbn [prediction_of Classical.processingTime]. pose proof (Hs 0%nat). lra.
Qed.

Lemma classical_confidence_range_witness :
  exists p : Classical.t,
    run (runClassicalMLModel
           (features_of (json_of_TransactionData (sample_transaction "abc"))
                        (constant_source 0.5)))
        (constant_source 0.5) = Ok p /\
    0.42 < Classical.confidenceScore p <= 0.88.
Proof.
  assert (Hs : unit_draws (constant_source 0.5))
    by (apply unit_draws_constant; lra).
  destruct (classical_confidence_range
              (features_of (json_of_TransactionData (sample_transaction "abc"))
                           (constant_source 0.5))
              (constant_source 0.5)
              (features_of_bounded _ _ Hs) Hs) as (p & Hp & Hc & _).
  exists p. now split.
Defined.

(** A body that parses to a value without an [amount], an object that lacks
    the key or a number, a string, a boolean or an array, is not rejected:
    it is scored as an amount that is not above 1000, with status 200, by
    the classical or by the quantum stage. *)
Theorem missing_amount_is_scored
    (JSON_parse : string -> option json) (body : string) (v : json)
    (s : RandomSource) :
  JSON_parse body = Some v ->
  v <> JNull ->
  property v "amount" = None ->
  above_1000 v = false /\
  Feature.amount (features_of v s) = NaN /\
  exists d : DetectionResult,
    run (handler JSON_parse (Event body)) s = Ok (ok_response d) /\
    statusCode (ok_response d) = 200%Z /\
    (d = quantum_final (quantum_of (features_of v s) (s 7%nat)) \/
     d = classical_final (prediction_of (features_of v s) (s 6%nat))).
Proof.
  intros Hp Hv Hm.
  assert (Ha : amount_throws v = false)
    by (unfold amount_throws; now rewrite Hm).
  split; [unfold above_1000; now rewrite Hm|].
  split; [cbn [features_of Feature.amount]; now rewrite Hm|].
  destruct (handler_result_cases JSON_parse body v s Hp Hv Ha)
    as [[_ H]|[_ H]]; eexists; unfold run; rewrite H;
    (split; [reflexivity|]); (split; [reflexivity|]);
    [now left | now right].
Qed.

(** The body [50], a number and not a transaction. *)
Lemma missing_amount_is_scored_witness :
  exists d : DetectionResult,
    run (handler sample_parse (Event "50")) (constant_source 0.5)
      = Ok (ok_response d).
Proof.
  destruct (missing_amount_is_scored sample_parse "50"%string (JNumber 50)
              (constant_source 0.5) eq_refl) as (_ & _ & d & Hd & _).
  - discriminate.
  - reflexivity.
  - now exists d.
Defined.
